(** * Business-hours parsing and open/closed evaluation

    A shallow embedding of the hours utilities of [src/utils/csvParser.ts]
    ([convertTo12Hour], [detectHoursFormat], [formatSimpleHours],
    [parseSimpleHours], [parseComplexHours], [isDayInRange],
    [parseTimeToMinutes], [getRestaurantStatus], [formatHoursDisplay]),
    of its CSV reader ([parseCSV], [parseCSVLine], [convertCSVRow],
    [convertPriceRange], [mockGeocodeHouston]) and of [getPriceColor] of
    [src/components/RestaurantCard.tsx], followed by the properties the
    specification states about the hours utilities and by further properties
    of the whole.

    Modelling conventions.
    - A JavaScript string is a [string]: a sequence of code units, here the
      code units below 256.  Comparison of strings is comparison of code
      units, which is what [String.compare] computes.
    - A JavaScript number that the code computes is an integer; it is a
      [jsnum], [Some z] for the integer [z] and [None] for [NaN].
    - [new Date()] is read once by each evaluator; it is the explicit
      argument [now] of the embedding.
    - The two regular expressions of the source are values of [regex] and are
      run by a backtracking matcher that follows the priorities of the
      ECMAScript matcher (greedy quantifiers, left alternative first). *)

From Stdlib Require Import ZArith List Bool Lia Ascii String.
From Stdlib Require Import Numbers.DecimalString.
From Stdlib Require Import QArith.
From Stdlib Require Numbers.DecimalZ Numbers.DecimalPos.
Import ListNotations.

Open Scope string_scope.
Open Scope Z_scope.

(* ================================================================= *)
(** ** Code units and character classes *)

Module Js.

Definition code (a : ascii) : N := N_of_ascii a.

Definition in_range (lo hi : N) (a : ascii) : bool :=
  ((lo <=? code a) && (code a <=? hi))%N.

(** [\d] : the ten ASCII digits. *)
Definition is_digit (a : ascii) : bool := in_range 48 57 a.

(** [\s], and the characters removed by [trim]: TAB, LF, VT, FF, CR, SPACE
    and NO-BREAK SPACE are the white space and line terminators below 256. *)
Definition is_space (a : ascii) : bool :=
  in_range 9 13 a || (code a =? 32)%N || (code a =? 160)%N.

(** A literal letter under the [i] flag: the letter in either case. *)
Definition is_letter_ci (upper : ascii) (a : ascii) : bool :=
  (a =? upper)%char || (code a =? code upper + 32)%N.

(** A literal character. *)
Definition is_char (c : ascii) (a : ascii) : bool := (a =? c)%char.

Definition digit_value (a : ascii) : Z := Z.of_N (code a) - 48.

#[global] Arguments is_digit : simpl never.
#[global] Arguments is_space : simpl never.
#[global] Arguments is_letter_ci : simpl never.
#[global] Arguments is_char : simpl never.
#[global] Arguments digit_value : simpl never.

(* ----------------------------------------------------------------- *)
(** *** String primitives *)

(** [String.prototype.toLowerCase] on code units below 256. *)
Definition lower_char (a : ascii) : ascii :=
  if in_range 65 90 a || (in_range 192 222 a && negb (code a =? 215)%N)
  then ascii_of_N (code a + 32) else a.

Fixpoint toLowerCase (s : string) : string :=
  match s with
  | EmptyString => EmptyString
  | String a s' => String (lower_char a) (toLowerCase s')
  end.

(** [String.prototype.toUpperCase], same range.  [U+00B5], [U+00DF] and
    [U+00FF] have their upper case outside the range and are left alone by
    this model; the source upper-cases the period group of a match only, two
    ASCII letters. *)
Definition upper_char (a : ascii) : ascii :=
  if in_range 97 122 a || (in_range 224 254 a && negb (code a =? 247)%N)
  then ascii_of_N (code a - 32) else a.

Fixpoint toUpperCase (s : string) : string :=
  match s with
  | EmptyString => EmptyString
  | String a s' => String (upper_char a) (toUpperCase s')
  end.

Fixpoint trimStart (s : string) : string :=
  match s with
  | EmptyString => EmptyString
  | String a s' => if is_space a then trimStart s' else s
  end.

Fixpoint trimEnd (s : string) : string :=
  match s with
  | EmptyString => EmptyString
  | String a s' =>
      match trimEnd s' with
      | EmptyString => if is_space a then EmptyString else String a EmptyString
      | t => String a t
      end
  end.

Definition trim (s : string) : string := trimEnd (trimStart s).

(** [s.includes(needle)]. *)
Fixpoint includes (needle s : string) : bool :=
  prefix needle s ||
  match s with
  | EmptyString => false
  | String _ s' => includes needle s'
  end.

(** [s.split(sep)] for a one-character separator: never the empty list. *)
Fixpoint split (sep : ascii) (s : string) : list string :=
  match s with
  | EmptyString => [EmptyString]
  | String a s' =>
      if (a =? sep)%char then EmptyString :: split sep s'
      else match split sep s' with
           | piece :: pieces => String a piece :: pieces
           | [] => [String a EmptyString]
           end
  end.

(** [pieces.join(sep)]. *)
Definition join (sep : string) (pieces : list string) : string :=
  String.concat sep pieces.

(** [s.padStart(n, "0")]. *)
Fixpoint zeros (n : nat) : string :=
  match n with
  | O => EmptyString
  | S n' => String "0" (zeros n')
  end.

Definition padStart0 (n : nat) (s : string) : string :=
  zeros (n - String.length s) ++ s.

(* ----------------------------------------------------------------- *)
(** *** Numbers *)

(** [None] is [NaN]. *)
Definition jsnum := option Z.

(** The relational operators on numbers: any comparison with [NaN] is
    false. *)
Definition num_le (x y : jsnum) : bool :=
  match x, y with
  | Some a, Some b => a <=? b
  | _, _ => false
  end.

Definition num_ge (x y : jsnum) : bool := num_le y x.

(** [Number.prototype.toString] on an integer. *)
Definition toString (z : Z) : string := NilZero.string_of_int (Z.to_int z).

(** [parseInt(s, 10)]: leading white space, an optional sign, then the
    longest run of digits; [NaN] when that run is empty.  Exact as long as
    the run denotes an integer a double holds exactly. *)
Fixpoint digits_value (acc : Z) (s : string) : Z :=
  match s with
  | String a s' => if is_digit a then digits_value (10 * acc + digit_value a) s' else acc
  | EmptyString => acc
  end.

Definition starts_with_digit (s : string) : bool :=
  match s with
  | String a _ => is_digit a
  | EmptyString => false
  end.

Definition parseInt (s : string) : jsnum :=
  match trimStart s with
  | String a s' =>
      if is_char "-" a then
        if starts_with_digit s' then Some (- digits_value 0 s') else None
      else if is_char "+" a then
        if starts_with_digit s' then Some (digits_value 0 s') else None
      else if is_digit a then Some (digits_value 0 (String a s'))
      else None
  | EmptyString => None
  end.

(** The character of a decimal digit. *)
Definition digit_char (d : Z) : ascii := ascii_of_N (48 + Z.to_N d).

End Js.

(* ================================================================= *)
(** ** Regular expressions *)

Module Regex.

(** The constructs the two patterns of the source use. *)
Inductive regex : Type :=
| Cls (p : ascii -> bool)         (* one code unit of a class: [\d], [:], [A] under [i] *)
| Seq (r1 r2 : regex)             (* [r1 r2] *)
| Alt (r1 r2 : regex)             (* [r1|r2] *)
| Opt (r : regex)                 (* [r?], greedy *)
| Star (p : ascii -> bool)        (* [c*] on a class, greedy *)
| Group (n : nat) (r : regex)     (* capture group number [n] *)
| Bol                             (* [^], no [m] flag *)
| Eol.                            (* [$], no [m] flag *)

(** [\d{1,2}] and [\d{2}] on a sub-pattern without groups. *)
Definition rep_1_2 (r : regex) : regex := Seq r (Opt r).
Definition rep_2 (r : regex) : regex := Seq r r.

Definition captures := list (nat * string).

Fixpoint capture (n : nat) (cs : captures) : option string :=
  match cs with
  | [] => None
  | (m, s) :: cs' => if Nat.eqb m n then Some s else capture n cs'
  end.

Section Matcher.
Context {R : Type}.

(** A continuation receives the index reached, the text matched so far,
    the input that remains and the captures made so far. *)
Definition cont := nat -> string -> string -> captures -> option R.

Fixpoint star (p : ascii -> bool) (pos : nat) (w s : string) (cs : captures)
         (k : cont) : option R :=
  match s with
  | String a s' =>
      if p a then
        match star p (S pos) (w ++ String a EmptyString) s' cs k with
        | Some x => Some x
        | None => k pos w s cs
        end
      else k pos w s cs
  | EmptyString => k pos w s cs
  end.

Fixpoint run (r : regex) (pos : nat) (w s : string) (cs : captures)
         (k : cont) : option R :=
  match r with
  | Cls p =>
      match s with
      | String a s' => if p a then k (S pos) (w ++ String a EmptyString) s' cs else None
      | EmptyString => None
      end
  | Seq r1 r2 => run r1 pos w s cs (fun pos' w' s' cs' => run r2 pos' w' s' cs' k)
  | Alt r1 r2 =>
      match run r1 pos w s cs k with
      | Some x => Some x
      | None => run r2 pos w s cs k
      end
  | Opt r1 =>
      match run r1 pos w s cs k with
      | Some x => Some x
      | None => k pos w s cs
      end
  | Star p => star p pos w s cs k
  | Group n r1 =>
      run r1 pos EmptyString s cs
          (fun pos' g s' cs' => k pos' (w ++ g) s' ((n, g) :: cs'))
  | Bol => if Nat.eqb pos 0 then k pos w s cs else None
  | Eol =>
      match s with
      | EmptyString => k pos w s cs
      | String _ _ => None
      end
  end.
End Matcher.

(** What a successful match gives: its text and its groups. *)
Record MatchResult : Type := mkMatch {
  m_text : string;
  m_groups : captures
}.

(** One attempt at index [pos], [s] being the input from there on. *)
Definition match_at (r : regex) (pos : nat) (s : string) : option MatchResult :=
  run r pos EmptyString s [] (fun _ w _ cs => Some (mkMatch w cs)).

(** [s.match(r)] without the [g] flag: the leftmost match. *)
Fixpoint exec_from (r : regex) (pos : nat) (s : string) : option MatchResult :=
  match match_at r pos s with
  | Some m => Some m
  | None =>
      match s with
      | String _ s' => exec_from r (S pos) s'
      | EmptyString => None
      end
  end.

Definition exec (r : regex) (s : string) : option MatchResult := exec_from r 0 s.

(** [r.test(s)]. *)
Definition test (r : regex) (s : string) : bool :=
  match exec r s with
  | Some _ => true
  | None => false
  end.

(** [s.match(r)] with the [g] flag: the texts of the successive matches,
    each search resuming where the previous match ended (one code unit
    further after an empty match).  [skip] counts the code units of the
    last match still to be passed.  The empty list stands for [null]. *)
Fixpoint matchAll_from (r : regex) (pos : nat) (s : string) (skip : nat) : list string :=
  match skip with
  | S skip' =>
      match s with
      | String _ s' => matchAll_from r (S pos) s' skip'
      | EmptyString => []
      end
  | O =>
      match match_at r pos s with
      | Some m =>
          m_text m ::
          match s with
          | String _ s' => matchAll_from r (S pos) s' (String.length (m_text m) - 1)
          | EmptyString => []
          end
      | None =>
          match s with
          | String _ s' => matchAll_from r (S pos) s' 0
          | EmptyString => []
          end
      end
  end.

Definition matchAll (r : regex) (s : string) : list string := matchAll_from r 0 s 0.

End Regex.

(* ================================================================= *)
(** ** The hours utilities *)

Module Hours.
Import Js Regex.

Inductive HoursFormat : Type := simple | complex.

Record OpenStatus : Type := mkStatus {
  isOpen : bool;
  statusText : string;
  statusColor : string;
  nextChange : option string
}.

(** The three readings the evaluators take from [new Date()]. *)
Record Date : Type := mkDate {
  getDay : Z;        (* 0 = Sunday ... 6 = Saturday *)
  getHours : Z;      (* 0 ... 23 *)
  getMinutes : Z     (* 0 ... 59 *)
}.

Definition valid_date (now : Date) : Prop :=
  0 <= getDay now <= 6 /\ 0 <= getHours now <= 23 /\ 0 <= getMinutes now <= 59.

(* ----------------------------------------------------------------- *)
(** *** convertTo12Hour *)

Definition convertTo12Hour (time : string) : string :=
  let parts := split ":" time in
  let hours := hd "" parts in
  let minutes := match parts with _ :: m :: _ => m | _ => "undefined" end in
  let hour := parseInt hours in
  let ampm := if num_ge hour (Some 12) then "PM" else "AM" in
  let displayHour :=
    match hour with
    | Some h => if Z.rem h 12 =? 0 then 12 else Z.rem h 12
    | None => 12
    end in
  toString displayHour ++ ":" ++ minutes ++ " " ++ ampm.

(* ----------------------------------------------------------------- *)
(** *** detectHoursFormat *)

(** [/^\d{1,2}:\d{2}$/] *)
Definition simpleTimePattern : regex :=
  Seq Bol
  (Seq (rep_1_2 (Cls is_digit))
  (Seq (Cls (is_char ":"))
  (Seq (rep_2 (Cls is_digit))
       Eol))).

Definition detectHoursFormat (openingHours closingHours : string) : HoursFormat :=
  if test simpleTimePattern openingHours && test simpleTimePattern closingHours
  then simple
  else complex.

(* ----------------------------------------------------------------- *)
(** *** formatSimpleHours *)

Definition formatSimpleHours (opening closing : string) : string :=
  convertTo12Hour opening ++ " - " ++ convertTo12Hour closing.

(* ----------------------------------------------------------------- *)
(** *** parseSimpleHours *)

Definition currentTimeString (now : Date) : string :=
  padStart0 2 (toString (getHours now)) ++ ":" ++ padStart0 2 (toString (getMinutes now)).

Definition parseSimpleHours (opening closing : string) (now : Date) : OpenStatus :=
  let currentTime := currentTimeString now in
  let isOpen := String.leb opening currentTime && String.leb currentTime closing in
  let nextChange :=
    if isOpen then Some ("Closes at " ++ convertTo12Hour closing)
    else if String.ltb currentTime opening then Some ("Opens at " ++ convertTo12Hour opening)
    else None in
  mkStatus isOpen
           (if isOpen then "Open Now" else "Closed")
           (if isOpen then "text-green-600" else "text-red-600")
           nextChange.

(* ----------------------------------------------------------------- *)
(** *** isDayInRange *)

(** The operands as the relational operators see them, after conversion to
    a number. *)
Definition isDayInRange (day start end_ : jsnum) : bool :=
  if num_le start end_ then num_ge day start && num_le day end_
  else num_ge day start || num_le day end_.

(* ----------------------------------------------------------------- *)
(** *** parseTimeToMinutes *)

(** [/(\d{1,2}):?(\d{2})?\s*(AM|PM)/i], also used with the [g] flag; its
    three groups first. *)
Definition hourGroup : regex := Group 1 (rep_1_2 (Cls is_digit)).

Definition minuteGroup : regex := Group 2 (rep_2 (Cls is_digit)).

Definition periodGroup : regex :=
  Group 3 (Alt (Seq (Cls (is_letter_ci "A")) (Cls (is_letter_ci "M")))
               (Seq (Cls (is_letter_ci "P")) (Cls (is_letter_ci "M")))).

Definition timePattern : regex :=
  Seq hourGroup
  (Seq (Opt (Cls (is_char ":")))
  (Seq (Opt minuteGroup)
  (Seq (Star is_space)
       periodGroup))).

(** [match[n]] where a string is expected: a group that took no part in the
    match is [undefined]. *)
Definition group (n : nat) (m : MatchResult) : string :=
  match capture n (m_groups m) with
  | Some g => g
  | None => "undefined"
  end.

Definition num_add (x y : jsnum) : jsnum :=
  match x, y with
  | Some a, Some b => Some (a + b)
  | _, _ => None
  end.

Definition num_mul (x y : jsnum) : jsnum :=
  match x, y with
  | Some a, Some b => Some (a * b)
  | _, _ => None
  end.

(** [x === n] for a number [x]. *)
Definition num_is (x : jsnum) (n : Z) : bool :=
  match x with
  | Some a => a =? n
  | None => false
  end.

Definition parseTimeToMinutes (timeStr : string) : jsnum :=
  match exec timePattern timeStr with
  | None => Some 0
  | Some m =>
      let hours := parseInt (group 1 m) in
      let minutes :=
        match capture 2 (m_groups m) with
        | Some (String a g) => parseInt (String a g)
        | _ => Some 0
        end in
      let period := toUpperCase (group 3 m) in
      let hours :=
        if (period =? "PM")%string && negb (num_is hours 12) then num_add hours (Some 12)
        else if (period =? "AM")%string && num_is hours 12 then Some 0
        else hours in
      num_add (num_mul hours (Some 60)) minutes
  end.

(* ----------------------------------------------------------------- *)
(** *** parseComplexHours *)

(** What a variable typed [number | null] holds at run time. *)
Inductive jsval : Type :=
| VNull
| VUndefined
| VNum (z : Z).

Definition toNumber (v : jsval) : jsnum :=
  match v with
  | VNull => Some 0
  | VUndefined => None
  | VNum z => Some z
  end.

(** [v !== null] *)
Definition not_null (v : jsval) : bool :=
  match v with
  | VNull => false
  | _ => true
  end.

(** [dayMap[name]].  A name that is not a key gives [undefined].  (The two
    lower-case names [dayMap] inherits, [constructor] and [__proto__], give
    objects; in every comparison of [isDayInRange] with a number they convert
    to [NaN], and compared with each other they leave only tests against
    the current day, a number, to decide: they act as [undefined] does.) *)
Definition dayMap (name : string) : jsval :=
  if (name =? "sun")%string then VNum 0
  else if (name =? "sunday")%string then VNum 0
  else if (name =? "mon")%string then VNum 1
  else if (name =? "monday")%string then VNum 1
  else if (name =? "tue")%string then VNum 2
  else if (name =? "tuesday")%string then VNum 2
  else if (name =? "wed")%string then VNum 3
  else if (name =? "wednesday")%string then VNum 3
  else if (name =? "thu")%string then VNum 4
  else if (name =? "thursday")%string then VNum 4
  else if (name =? "fri")%string then VNum 5
  else if (name =? "friday")%string then VNum 5
  else if (name =? "sat")%string then VNum 6
  else if (name =? "saturday")%string then VNum 6
  else VUndefined.

Definition openStatus (closeStr : string) : OpenStatus :=
  mkStatus true "Open Now" "text-green-600" (Some ("Closes at " ++ closeStr)).

Definition closedStatus : OpenStatus :=
  mkStatus false "Closed" "text-red-600" None.

(** The "Daily" branch: [Some] when it returns, [None] when control falls
    through to the day-specific schedules. *)
Definition dailyHours (hoursString : string) (currentTime : jsnum) : option OpenStatus :=
  if includes "daily:" (toLowerCase hoursString) then
    match matchAll timePattern hoursString with
    | openStr :: closeStr :: _ =>
        let openTime := parseTimeToMinutes openStr in
        let closeTime := parseTimeToMinutes closeStr in
        let isOpen := num_ge currentTime openTime && num_le currentTime closeTime in
        Some (mkStatus isOpen
                       (if isOpen then "Open Now" else "Closed")
                       (if isOpen then "text-green-600" else "text-red-600")
                       (Some (if isOpen then "Closes at " ++ closeStr
                              else "Opens at " ++ openStr)))
    | _ => None
    end
  else None.

(** The inner loop, over the time ranges of one schedule: [Some] when it
    returns from the function. *)
Fixpoint scanTimeRanges (currentTime : jsnum) (timeRanges : list string) : option OpenStatus :=
  match timeRanges with
  | [] => None
  | timeRange :: rest =>
      match matchAll timePattern timeRange with
      | openStr :: closeStr :: _ =>
          let openTime := parseTimeToMinutes openStr in
          let closeTime := parseTimeToMinutes closeStr in
          if num_ge currentTime openTime && num_le currentTime closeTime
          then Some (openStatus closeStr)
          else scanTimeRanges currentTime rest
      | _ => scanTimeRanges currentTime rest
      end
  end.

(** The bounds of the day range a day part denotes (the assignments to
    [startDay] and [endDay]); a missing element of the destructured array
    is [undefined]. *)
Definition dayBounds (dayPart : string) : jsval * jsval :=
  if includes "-" dayPart then
    match map trim (split "-" dayPart) with
    | start :: end_ :: _ => (dayMap start, dayMap end_)
    | [start] => (dayMap start, dayMap "undefined")
    | [] => (dayMap "undefined", dayMap "undefined")
    end
  else (dayMap dayPart, dayMap dayPart).

(** The body of the outer loop for one schedule. *)
Definition scanSchedule (currentDay currentTime : jsnum) (schedule : string) : option OpenStatus :=
  match split ":" schedule with
  | part0 :: part1 :: parts' =>
      let dayPart := toLowerCase (trim part0) in
      let timePart := trim (join ":" (part1 :: parts')) in
      let '(startDay, endDay) := dayBounds dayPart in
      if not_null startDay && not_null endDay &&
         isDayInRange currentDay (toNumber startDay) (toNumber endDay)
      then scanTimeRanges currentTime (map trim (split "&" timePart))
      else None
  | _ => None
  end.

Fixpoint scanSchedules (currentDay currentTime : jsnum) (schedules : list string) : option OpenStatus :=
  match schedules with
  | [] => None
  | schedule :: rest =>
      match scanSchedule currentDay currentTime schedule with
      | Some status => Some status
      | None => scanSchedules currentDay currentTime rest
      end
  end.

Definition parseComplexHours (hoursString : string) (now : Date) : OpenStatus :=
  let currentDay := Some (getDay now) in
  let currentTime := Some (getHours now * 60 + getMinutes now) in
  match dailyHours hoursString currentTime with
  | Some status => status
  | None =>
      let schedules := map trim (split ";" hoursString) in
      match scanSchedules currentDay currentTime schedules with
      | Some status => status
      | None => closedStatus
      end
  end.

(* ----------------------------------------------------------------- *)
(** *** getRestaurantStatus *)

Definition getRestaurantStatus (openingHours closingHours : string) (now : Date) : OpenStatus :=
  match detectHoursFormat openingHours closingHours with
  | simple => parseSimpleHours openingHours closingHours now
  | complex => parseComplexHours openingHours now
  end.

(* ----------------------------------------------------------------- *)
(** *** formatHoursDisplay *)

(** The optional argument [format] is [None] when it is not supplied; both
    format tags are non-empty strings, so [format || d] is [format] whenever
    it is supplied. *)
Definition formatHoursDisplay (openingHours closingHours : string)
           (format : option HoursFormat) : string :=
  let detectedFormat :=
    match format with
    | Some f => f
    | None => detectHoursFormat openingHours closingHours
    end in
  match detectedFormat with
  | simple => formatSimpleHours openingHours closingHours
  | complex => openingHours
  end.

End Hours.

(* ================================================================= *)
(** ** The vocabulary of the specification *)

Module Spec.
Import Js Regex Hours.

(** The text before the first [sep] (all of [s] when there is none) and the
    text after it (empty when there is none). *)
Fixpoint before (sep : ascii) (s : string) : string :=
  match s with
  | EmptyString => EmptyString
  | String a s' => if (a =? sep)%char then EmptyString else String a (before sep s')
  end.

Fixpoint after (sep : ascii) (s : string) : string :=
  match s with
  | EmptyString => EmptyString
  | String a s' => if (a =? sep)%char then s' else after sep s'
  end.

Fixpoint all_chars (p : ascii -> bool) (s : string) : bool :=
  match s with
  | EmptyString => true
  | String a s' => p a && all_chars p s'
  end.

(* ----------------------------------------------------------------- *)
(** *** The strict pattern of the format detector *)

(** One or two digits, a colon, exactly two digits, and nothing else. *)
Definition is_simple_time (s : string) : Prop :=
  exists h m : string,
    s = h ++ ":" ++ m /\
    (String.length h = 1 \/ String.length h = 2)%nat /\
    all_chars is_digit h = true /\
    String.length m = 2%nat /\
    all_chars is_digit m = true.

(* ----------------------------------------------------------------- *)
(** *** Time tokens *)

Inductive Period : Type := AM | PM.

(** A time token, piece by piece: one or two hour digits, an optional
    colon, optional two minute digits, white space, the two letters of the
    period in either case. *)
Record TimeToken : Type := mkToken {
  hour_tens : option ascii;
  hour_units : ascii;
  colon : bool;
  minute : option (ascii * ascii);
  spaces : string;
  letter1 : ascii;
  letter2 : ascii
}.

Definition well_formed (tk : TimeToken) : Prop :=
  match hour_tens tk with Some d => is_digit d = true | None => True end /\
  is_digit (hour_units tk) = true /\
  match minute tk with
  | Some (d1, d2) => is_digit d1 = true /\ is_digit d2 = true
  | None => True
  end /\
  all_chars is_space (spaces tk) = true /\
  (is_letter_ci "A" (letter1 tk) = true \/ is_letter_ci "P" (letter1 tk) = true) /\
  is_letter_ci "M" (letter2 tk) = true.

Definition token_text (tk : TimeToken) : string :=
  match hour_tens tk with Some d => String d EmptyString | None => EmptyString end ++
  String (hour_units tk) EmptyString ++
  (if colon tk then ":" else EmptyString) ++
  match minute tk with
  | Some (d1, d2) => String d1 (String d2 EmptyString)
  | None => EmptyString
  end ++
  spaces tk ++
  String (letter1 tk) (String (letter2 tk) EmptyString).

Definition hour_text (tk : TimeToken) : string :=
  match hour_tens tk with
  | Some d => String d (String (hour_units tk) EmptyString)
  | None => String (hour_units tk) EmptyString
  end.

Definition minute_text (tk : TimeToken) : option string :=
  match minute tk with
  | Some (d1, d2) => Some (String d1 (String d2 EmptyString))
  | None => None
  end.

Definition period_text (tk : TimeToken) : string :=
  String (letter1 tk) (String (letter2 tk) EmptyString).

(** The groups of a match of [timePattern] on the token: the hour, the
    minutes when present, the period. *)
Definition token_groups (tk : TimeToken) : captures :=
  (3%nat, period_text tk) ::
  match minute_text tk with
  | Some g => [(2%nat, g)]
  | None => []
  end ++
  [(1%nat, hour_text tk)].

Definition token_hour (tk : TimeToken) : Z :=
  match hour_tens tk with
  | Some d => 10 * digit_value d + digit_value (hour_units tk)
  | None => digit_value (hour_units tk)
  end.

Definition token_minute (tk : TimeToken) : Z :=
  match minute tk with
  | Some (d1, d2) => 10 * digit_value d1 + digit_value d2
  | None => 0
  end.

Definition token_period (tk : TimeToken) : Period :=
  if is_letter_ci "A" (letter1 tk) then AM else PM.

(** Minutes since midnight: 12 AM is hour 0, 12 PM is hour 12, any other
    hour keeps its value, twelve more when PM. *)
Definition token_minutes (tk : TimeToken) : Z :=
  let h := token_hour tk in
  let h24 :=
    match token_period tk with
    | AM => if h =? 12 then 0 else h
    | PM => if h =? 12 then 12 else h + 12
    end in
  h24 * 60 + token_minute tk.

(* ----------------------------------------------------------------- *)
(** *** Day ranges *)

(** The reading the specification gives of a day part, to be compared with
    [dayBounds]: a token with a hyphen is split once, on its first hyphen,
    and both sides are resolved. *)
Definition resolveRange_split_once (token : string) : jsval * jsval :=
  if includes "-" token
  then (dayMap (trim (before "-" token)), dayMap (trim (after "-" token)))
  else (dayMap token, dayMap token).

(** The day part of a clause, as the evaluator reads it. *)
Definition dayPartOf (clause : string) : string :=
  toLowerCase (trim (before ":" clause)).

Definition timePartOf (clause : string) : string :=
  trim (after ":" clause).

(** A name resolves when the canonical map gives it an index. *)
Definition resolves (name : string) : bool :=
  match dayMap name with
  | VNum _ => true
  | _ => false
  end.

(** The two names a day part puts forward: the first two pieces between
    hyphens, trimmed; the token itself when it has no hyphen. *)
Definition startName (token : string) : string :=
  if includes "-" token then trim (before "-" token) else token.

Definition endName (token : string) : string :=
  if includes "-" token then trim (before "-" (after "-" token)) else token.

(* ----------------------------------------------------------------- *)
(** *** Status records *)

(** The text and the colour of a status follow its [isOpen] flag. *)
Definition well_labelled (st : OpenStatus) : Prop :=
  statusText st = (if isOpen st then "Open Now" else "Closed") /\
  statusColor st = (if isOpen st then "text-green-600" else "text-red-600").

(* ----------------------------------------------------------------- *)
(** *** Clauses and intervals of a day-qualified descriptor *)

Definition clauses (hoursString : string) : list string :=
  map trim (split ";" hoursString).

(** The day range of the clause contains [day]. *)
Definition dayMatches (day : Z) (clause : string) : bool :=
  includes ":" clause &&
  let '(s, e) := dayBounds (dayPartOf clause) in
  isDayInRange (Some day) (toNumber s) (toNumber e).

(** The interval an [&]-separated piece contributes: its first two time
    tokens, as found; none when it has fewer than two. *)
Definition intervalOf (piece : string) : list (string * string) :=
  match matchAll timePattern piece with
  | openStr :: closeStr :: _ => [(openStr, closeStr)]
  | _ => []
  end.

Definition intervals (clause : string) : list (string * string) :=
  flat_map intervalOf (map trim (split "&" (timePartOf clause))).

(** The interval contains the time [t], both bounds included. *)
Definition covers (t : Z) (iv : string * string) : bool :=
  num_le (parseTimeToMinutes (fst iv)) (Some t) &&
  num_le (Some t) (parseTimeToMinutes (snd iv)).

(** The clause decides nothing at this day and time: its day range does not
    contain the day, or none of its intervals contains the time. *)
Definition undecided (day t : Z) (clause : string) : Prop :=
  dayMatches day clause = false \/
  forall iv, In iv (intervals clause) -> covers t iv = false.

Definition minutesOf (now : Date) : Z := getHours now * 60 + getMinutes now.

(** The descriptor takes the day-qualified path: the "Daily" branch does
    not return. *)
Definition day_qualified (hoursString : string) : Prop :=
  includes "daily:" (toLowerCase hoursString) = false \/
  (List.length (matchAll timePattern hoursString) < 2)%nat.

End Spec.

(* ================================================================= *)
(** ** The ingestion utilities *)

Module Geocode.
Import Js Regex Hours Spec.

(** A coordinate pair.  A literal of the source is the decimal number
    written there; the code hands the numbers on and never computes with
    them. *)
Record Coordinates : Type := mkCoords {
  latitude : Q;
  longitude : Q
}.

(** The object literal [locationMap], property by property in the order of
    the source. *)
Definition locationMap : list (string * Coordinates) :=
  [ ("6815 hillcroft", mkCoords 29.6995 (-95.4950));
    ("7300 hillcroft", mkCoords 29.6860 (-95.4948));
    ("5827 hillcroft", mkCoords 29.7095 (-95.4952));
    ("3601 hillcroft", mkCoords 29.7350 (-95.4951));
    ("hillcroft", mkCoords 29.7223 (-95.4954));
    ("12427 bissonnet", mkCoords 29.7019 (-95.5683));
    ("bissonnet", mkCoords 29.7019 (-95.5683));
    ("2800 kirby", mkCoords 29.7346 (-95.4189));
    ("3910 kirby", mkCoords 29.7300 (-95.4185));
    ("kirby", mkCoords 29.7346 (-95.4189));
    ("westheimer", mkCoords 29.7390 (-95.4563));
    ("516 westheimer", mkCoords 29.7485 (-95.3950));
    ("1834 westheimer", mkCoords 29.7431 (-95.4220));
    ("3334 westheimer", mkCoords 29.7402 (-95.4350));
    ("8888 westheimer", mkCoords 29.7380 (-95.5600));
    ("richmond", mkCoords 29.7355 (-95.5021));
    ("4410 richmond", mkCoords 29.7355 (-95.4621));
    ("fannin", mkCoords 29.7520 (-95.3698));
    ("1201 fannin", mkCoords 29.7520 (-95.3698));
    ("bellaire", mkCoords 29.7058 (-95.4774));
    ("9889 bellaire", mkCoords 29.7058 (-95.4774));
    ("77081", mkCoords 29.7010 (-95.5200));
    ("77099", mkCoords 29.7019 (-95.5683));
    ("77098", mkCoords 29.7431 (-95.4220));
    ("77057", mkCoords 29.7350 (-95.4951));
    ("77006", mkCoords 29.7485 (-95.3950));
    ("77027", mkCoords 29.7402 (-95.4350));
    ("77002", mkCoords 29.7520 (-95.3698));
    ("77036", mkCoords 29.7058 (-95.4774));
    ("77063", mkCoords 29.7380 (-95.5600));
    ("77074", mkCoords 29.6850 (-95.5300)) ]%Q.

(** A property key that is an array index: the canonical decimal form of an
    integer from 0 to 2^32 - 2. *)
Definition arrayIndex (key : string) : option Z :=
  match key with
  | EmptyString => None
  | String a rest =>
      if all_chars is_digit key && (negb (a =? "0")%char || (rest =? "")%string)
      then if digits_value 0 key <=? 4294967294 then Some (digits_value 0 key) else None
      else None
  end.

Section OwnProperties.
Context {V : Type}.

Fixpoint insertByIndex (i : Z) (entry : string * V) (sorted : list (Z * (string * V)))
  : list (Z * (string * V)) :=
  match sorted with
  | [] => [(i, entry)]
  | (j, other) :: sorted' =>
      if i <? j then (i, entry) :: sorted
      else (j, other) :: insertByIndex i entry sorted'
  end.

Fixpoint indexEntries (literal : list (string * V)) : list (Z * (string * V)) :=
  match literal with
  | [] => []
  | entry :: literal' =>
      match arrayIndex (fst entry) with
      | Some i => insertByIndex i entry (indexEntries literal')
      | None => indexEntries literal'
      end
  end.

Definition isNamed (entry : string * V) : bool :=
  match arrayIndex (fst entry) with
  | Some _ => false
  | None => true
  end.

(** [Object.entries(o)] for an object written as a literal with distinct
    keys: the own properties in the order of [OwnPropertyKeys], that is the
    array-index keys first, by ascending value, then the other keys in the
    order they were written. *)
Definition objectEntries (literal : list (string * V)) : list (string * V) :=
  (map snd (indexEntries literal) ++ filter isNamed literal)%list.
End OwnProperties.

Definition cityCenter : Coordinates := mkCoords 29.7604 (-95.3698).

(** The loop over the entries: the first one whose key the address
    includes. *)
Fixpoint firstIncluded (addressLower : string) (entries : list (string * Coordinates))
  : option (string * Coordinates) :=
  match entries with
  | [] => None
  | (key, coords) :: entries' =>
      if includes key addressLower then Some (key, coords)
      else firstIncluded addressLower entries'
  end.

Definition mockGeocodeHouston (address : string) : Coordinates :=
  let addressLower := toLowerCase address in
  match firstIncluded addressLower (objectEntries locationMap) with
  | Some (_, coords) => coords
  | None => cityCenter
  end.

End Geocode.

Module Price.
Import Js Regex Hours Spec.

(** [c+] on a class. *)
Definition plus (p : ascii -> bool) : regex := Seq (Cls p) (Star p).

(** [/\$(\d+)-(\d+)/] *)
Definition pricePattern : regex :=
  Seq (Cls (is_char "$"))
  (Seq (Group 1 (plus is_digit))
  (Seq (Cls (is_char "-"))
       (Group 2 (plus is_digit)))).

(** [x < y] on rationals. *)
Definition Qlt_bool (x y : Q) : bool := negb (Qle_bool y x).

(** The average is a rational here and a double in the source.  The two
    agree on the comparisons below: the digits of a bound denote an integer,
    the sum and its half are exact as long as the bounds are below 2^53, and
    beyond that the rounded values stay far above 30. *)
Definition convertPriceRange (priceRange : string) : string :=
  match exec pricePattern priceRange with
  | None => "$$"
  | Some m =>
      match parseInt (group 1 m), parseInt (group 2 m) with
      | Some minPrice, Some maxPrice =>
          let avgPrice := (inject_Z (minPrice + maxPrice) / 2)%Q in
          if Qlt_bool avgPrice 10 then "$"
          else if Qle_bool avgPrice 20 then "$$"
          else if Qle_bool avgPrice 30 then "$$$"
          else "$$$$"
      | _, _ => "$$$$"
      end
  end.

(** [getPriceColor] of the restaurant card. *)
Definition getPriceColor (priceRange : string) : string :=
  if (priceRange =? "$")%string then "text-green-600"
  else if (priceRange =? "$$")%string then "text-yellow-600"
  else if (priceRange =? "$$$")%string then "text-orange-600"
  else if (priceRange =? "$$$$")%string then "text-red-600"
  else "text-gray-600".

End Price.

Module Csv.
Import Js Regex Hours Spec.

(** What a call gives: a value, or the [TypeError] thrown when a method is
    called on [undefined]. *)
Inductive result (A : Type) : Type :=
| Ok (a : A)
| TypeError.
Arguments Ok {A} a.
Arguments TypeError {A}.

Definition quote : ascii := "034"%char.
Definition newline : ascii := "010"%char.

(* ----------------------------------------------------------------- *)
(** *** parseCSVLine *)

(** The loop over the characters, with its three variables. *)
Fixpoint parseCSVLine_from (line current : string) (inQuotes : bool) (result : list string)
  : list string :=
  match line with
  | EmptyString => (result ++ [trim current])%list
  | String char rest =>
      if (char =? quote)%char then
        parseCSVLine_from rest current (negb inQuotes) result
      else if (char =? ",")%char && negb inQuotes then
        parseCSVLine_from rest EmptyString inQuotes (result ++ [trim current])%list
      else
        parseCSVLine_from rest (current ++ String char EmptyString) inQuotes result
  end.

Definition parseCSVLine (line : string) : list string :=
  parseCSVLine_from line EmptyString false [].

(** [values.length === headers.length] for the cells of [line]. *)
Definition fits (headers : list string) (line : string) : bool :=
  Nat.eqb (List.length (parseCSVLine line)) (List.length headers).

(* ----------------------------------------------------------------- *)
(** *** The row object *)

(** The own properties of [row], the last one written first.  [row[key]] is
    the value written last under [key], [undefined] ([None]) without one;
    none of the keys the code reads is inherited.  Writing a string under
    [__proto__] creates no property. *)
Definition Row : Type := list (string * string).

Definition rowSet (key value : string) (row : Row) : Row :=
  if (key =? "__proto__")%string then row else (key, value) :: row.

Fixpoint rowGet (key : string) (row : Row) : option string :=
  match row with
  | [] => None
  | (k, v) :: row' => if (k =? key)%string then Some v else rowGet key row'
  end.

(** [headers.forEach((header, index) => { row[header] = values[index] })]
    for [values] as long as [headers]. *)
Definition buildRow (headers values : list string) : Row :=
  fold_left (fun row hv => rowSet (fst hv) (snd hv) row) (combine headers values) [].

(** [`${x}`] *)
Definition interpolate (x : option string) : string :=
  match x with
  | Some s => s
  | None => "undefined"
  end.

(* ----------------------------------------------------------------- *)
(** *** convertCSVRow and parseCSV *)

Section Rating.
(** [parseFloat(cell) || 0] is a floating-point number; it is kept as the
    function [ratingOf] of the cell, the same for every row. *)
Context {Rating : Type} (ratingOf : option string -> Rating).

Record Restaurant : Type := mkRestaurant {
  id : string;
  name : option string;
  address : string;
  cuisine : option string;
  rating : Rating;
  priceRange : string;
  openingHours : option string;
  closingHours : string;
  latitude : Q;
  longitude : Q;
  phone : option string;
  description : string;
  hoursFormat : HoursFormat
}.

Definition convertCSVRow (row : Row) (index : Z) : result Restaurant :=
  match rowGet "Address" row with
  | None => TypeError
  | Some rowAddress =>
      let coords := Geocode.mockGeocodeHouston rowAddress in
      match rowGet "Price Range" row with
      | None => TypeError
      | Some rowPrice =>
          Ok (mkRestaurant
                ("houston-" ++ toString index)
                (rowGet "Restaurant Name" row)
                rowAddress
                (rowGet "Regional Cuisine" row)
                (ratingOf (rowGet "Rating" row))
                (Price.convertPriceRange rowPrice)
                (rowGet "Operating Hours" row)
                EmptyString
                (Geocode.latitude coords)
                (Geocode.longitude coords)
                (rowGet "Phone Number" row)
                (interpolate (rowGet "Special Features" row) ++
                 " - Signature dishes: " ++
                 interpolate (rowGet "Signature Dishes" row))
                complex)
      end
  end.

(** The loop over the lines after the header, [i] being the index of the
    line. *)
Fixpoint parseRows (headers : list string) (i : Z) (lines : list string)
         (restaurants : list Restaurant) : result (list Restaurant) :=
  match lines with
  | [] => Ok restaurants
  | line :: lines' =>
      let values := parseCSVLine line in
      if Nat.eqb (List.length values) (List.length headers) then
        match convertCSVRow (buildRow headers values) i with
        | Ok restaurant => parseRows headers (i + 1) lines' (restaurants ++ [restaurant])%list
        | TypeError => TypeError
        end
      else parseRows headers (i + 1) lines' restaurants
  end.

Definition parseCSV (csvContent : string) : result (list Restaurant) :=
  match split newline (trim csvContent) with
  | header :: line1 :: lines' =>
      parseRows (parseCSVLine header) 1 (line1 :: lines') []
  | _ => Ok []
  end.
End Rating.

End Csv.

(* ================================================================= *)
(** ** Properties *)

Import Js Regex Hours Spec.

(* ----------------------------------------------------------------- *)
(** *** The scenarios of the test suite, evaluated *)

Definition tuesday_2pm : Date := mkDate 2 14 0.

Example convertTo12Hour_tests :
  map convertTo12Hour ["09:00"; "11:30"; "13:00"; "18:30"; "22:00"; "00:00"; "12:00"]
  = ["9:00 AM"; "11:30 AM"; "1:00 PM"; "6:30 PM"; "10:00 PM"; "12:00 AM"; "12:00 PM"].
Proof. vm_compute. reflexivity. Qed.

Example formatSimpleHours_tests :
  formatSimpleHours "11:00" "22:00" = "11:00 AM - 10:00 PM" /\
  formatSimpleHours "09:30" "17:00" = "9:30 AM - 5:00 PM".
Proof. vm_compute. auto. Qed.

Example status_simple_open :
  getRestaurantStatus "11:00" "22:00" tuesday_2pm
  = mkStatus true "Open Now" "text-green-600" (Some "Closes at 10:00 PM").
Proof. vm_compute. reflexivity. Qed.

Example status_simple_before_opening :
  getRestaurantStatus "18:00" "23:00" tuesday_2pm
  = mkStatus false "Closed" "text-red-600" (Some "Opens at 6:00 PM").
Proof. vm_compute. reflexivity. Qed.

Example status_simple_after_closing :
  getRestaurantStatus "09:00" "13:00" tuesday_2pm = closedStatus.
Proof. vm_compute. reflexivity. Qed.

Example status_daily :
  isOpen (getRestaurantStatus "Daily: 11:00AM-10:00PM" "" tuesday_2pm) = true /\
  isOpen (getRestaurantStatus "Daily: 11:00AM-9:00PM" "" (mkDate 2 22 0)) = false.
Proof. vm_compute. auto. Qed.

Example status_day_specific :
  isOpen (getRestaurantStatus "Mon-Thu: 11:00AM-9:00PM" "" tuesday_2pm) = true /\
  isOpen (getRestaurantStatus "Mon-Thu: 11AM-9PM; Fri-Sat: 11AM-10PM" "" (mkDate 6 14 0)) = true /\
  isOpen (getRestaurantStatus "Mon-Sat: 11AM-9PM" "" (mkDate 0 14 0)) = false.
Proof. vm_compute. auto. Qed.

Example status_lunch_and_dinner :
  let hours := "Mon-Thu: 11:30AM-2:30PM & 6:00PM-10:00PM" in
  isOpen (getRestaurantStatus hours "" tuesday_2pm) = true /\
  isOpen (getRestaurantStatus hours "" (mkDate 2 16 0)) = false /\
  isOpen (getRestaurantStatus hours "" (mkDate 2 19 0)) = true.
Proof. vm_compute. auto. Qed.

Example parseTimeToMinutes_tests :
  map parseTimeToMinutes ["11:30AM"; "2PM"; "10:00 PM"; "12AM"; "12PM"; "130am"; "noon"]
  = [Some 690; Some 840; Some 1320; Some 0; Some 720; Some 90; Some 0].
Proof. vm_compute. reflexivity. Qed.

Example matchAll_tests :
  matchAll timePattern "Mon-Thu: 11:30AM-2:30PM & 6:00PM-10:00PM"
  = ["11:30AM"; "2:30PM"; "6:00PM"; "10:00PM"].
Proof. vm_compute. reflexivity. Qed.

(* ----------------------------------------------------------------- *)
(** *** Character classes *)

Lemma is_char_eq c a : is_char c a = true -> a = c.
Proof. unfold is_char. apply Ascii.eqb_eq. Qed.

(** Case analysis on the class tests of the goal: a test on a literal is
    evaluated, a test on a variable is split. *)
Ltac eval_class p a :=
  let v := eval vm_compute in (p a) in change (p a) with v.

Ltac split_class p a :=
  lazymatch a with
  | Ascii _ _ _ _ _ _ _ _ => eval_class p a
  | _ => destruct (p a) eqn:?
  end; simpl.

Ltac split_classes :=
  repeat match goal with
         | |- context [is_digit ?a] => split_class is_digit a
         | |- context [is_char ?c ?a] => split_class (is_char c) a
         end.

Ltac class_facts :=
  repeat match goal with
         | H : is_char _ _ = true |- _ => apply is_char_eq in H; subst
         end;
  try match goal with
      | H : ?p (Ascii _ _ _ _ _ _ _ _) = _ |- _ => vm_compute in H; discriminate H
      end.

(* ----------------------------------------------------------------- *)
(** *** The format detector *)

(** [^] fails at every index but the first, so only the attempt at index 0
    can succeed. *)
Lemma exec_from_bol_pos r pos s :
  pos <> 0%nat -> exec_from (Seq Bol r) pos s = None.
Proof.
  revert pos. induction s as [|a s IH]; intros pos Hpos; simpl; unfold match_at; simpl.
  - destruct pos; [congruence|reflexivity].
  - destruct pos; [congruence|]. simpl. apply IH. lia.
Qed.

Lemma test_simple_at0 s :
  test simpleTimePattern s =
  match match_at simpleTimePattern 0 s with Some _ => true | None => false end.
Proof.
  unfold test, exec. destruct s; simpl.
  - destruct (match_at simpleTimePattern 0 ""); reflexivity.
  - destruct (match_at simpleTimePattern 0 (String a s)); [reflexivity|].
    unfold simpleTimePattern. rewrite exec_from_bol_pos by lia. reflexivity.
Qed.

Lemma simple_time_1 h m1 m2 :
  is_digit h = true -> is_digit m1 = true -> is_digit m2 = true ->
  is_simple_time (String h (String ":" (String m1 (String m2 "")))).
Proof.
  intros Hh H1 H2. exists (String h ""), (String m1 (String m2 "")).
  simpl. rewrite Hh, H1, H2. auto 10.
Qed.

Lemma simple_time_2 h1 h2 m1 m2 :
  is_digit h1 = true -> is_digit h2 = true -> is_digit m1 = true -> is_digit m2 = true ->
  is_simple_time (String h1 (String h2 (String ":" (String m1 (String m2 ""))))).
Proof.
  intros Hh1 Hh2 H1 H2. exists (String h1 (String h2 "")), (String m1 (String m2 "")).
  simpl. rewrite Hh1, Hh2, H1, H2. auto 10.
Qed.

Lemma test_simple_sound s : test simpleTimePattern s = true -> is_simple_time s.
Proof.
  rewrite test_simple_at0. unfold match_at, simpleTimePattern, rep_1_2, rep_2.
  destruct s as [|a1 [|a2 [|a3 [|a4 [|a5 [|a6 s]]]]]]; simpl.
  all: split_classes; try discriminate; intros _; class_facts.
  all: auto using simple_time_1, simple_time_2.
Qed.

Lemma test_simple_complete s : is_simple_time s -> test simpleTimePattern s = true.
Proof.
  intros (h & m & -> & Hh & Dh & Hm & Dm).
  rewrite test_simple_at0. unfold match_at, simpleTimePattern, rep_1_2, rep_2.
  destruct m as [|m1 [|m2 [|m3 m]]]; try discriminate Hm.
  destruct h as [|h1 [|h2 [|h3 h]]]; simpl in Hh; try lia.
  all: simpl in Dh, Dm;
    repeat match goal with H : _ && _ = true |- _ => apply andb_prop in H; destruct H end.
  all: simpl; repeat match goal with H : is_digit _ = true |- _ => rewrite H; clear H end; simpl.
  all: split_classes; reflexivity.
Qed.

Lemma test_simple_iff s : test simpleTimePattern s = true <-> is_simple_time s.
Proof. split; [apply test_simple_sound | apply test_simple_complete]. Qed.

Lemma detect_simple_iff o c :
  detectHoursFormat o c = simple <-> is_simple_time o /\ is_simple_time c.
Proof.
  unfold detectHoursFormat. rewrite <- !test_simple_iff.
  destruct (test simpleTimePattern o), (test simpleTimePattern c); simpl;
    intuition discriminate.
Qed.

(** C7: [detectHoursFormat] answers [simple] exactly when both strings, in
    their entirety, are one or two digits, a colon and two digits; every
    other pair is [complex] (extra text, day names, a missing colon, an empty
    closing string); the check is on the syntax only and accepts hour 99. *)
Theorem C7_detectHoursFormat_strict_pattern :
  (forall o c, detectHoursFormat o c = simple <-> is_simple_time o /\ is_simple_time c) /\
  (forall o c, detectHoursFormat o c = complex <-> ~ (is_simple_time o /\ is_simple_time c)) /\
  detectHoursFormat "11:00" "22:00" = simple /\
  detectHoursFormat "99:99" "9:00" = simple /\
  detectHoursFormat "11:00 " "22:00" = complex /\
  detectHoursFormat "Mon-Thu: 11AM-9PM; Fri-Sat: 11AM-10PM" "" = complex /\
  detectHoursFormat "1100" "22:00" = complex /\
  detectHoursFormat "11:00" "" = complex /\
  detectHoursFormat "Daily: 11:00AM-10:00PM" "" = complex.
Proof.
  split; [exact detect_simple_iff|].
  split.
  - intros o c. rewrite <- detect_simple_iff.
    destruct (detectHoursFormat o c); split; congruence.
  - repeat split; vm_compute; reflexivity.
Qed.

(* ----------------------------------------------------------------- *)
(** *** The display formatter *)

(** C9: passing the detected format as the override never changes what
    [formatHoursDisplay] renders. *)
Theorem C9_formatHoursDisplay_detected_override :
  forall o c,
    formatHoursDisplay o c (Some (detectHoursFormat o c)) = formatHoursDisplay o c None.
Proof. intros o c. unfold formatHoursDisplay. reflexivity. Qed.

(* ----------------------------------------------------------------- *)
(** *** Status records *)

Lemma scanTimeRanges_open t pieces st :
  scanTimeRanges t pieces = Some st -> exists closeStr, st = openStatus closeStr.
Proof.
  induction pieces as [|piece pieces IH]; simpl; [discriminate|].
  destruct (matchAll timePattern piece) as [|openStr [|closeStr more]]; auto.
  destruct (_ && _); auto.
  intros [= <-]. eauto.
Qed.

Lemma scanSchedule_open d t schedule st :
  scanSchedule d t schedule = Some st -> exists closeStr, st = openStatus closeStr.
Proof.
  unfold scanSchedule.
  destruct (split ":" schedule) as [|part0 [|part1 parts]]; try discriminate.
  destruct (dayBounds _) as [startDay endDay].
  destruct (_ && _); [apply scanTimeRanges_open | discriminate].
Qed.

Lemma scanSchedules_open d t schedules st :
  scanSchedules d t schedules = Some st -> exists closeStr, st = openStatus closeStr.
Proof.
  induction schedules as [|schedule schedules IH]; simpl; [discriminate|].
  destruct (scanSchedule d t schedule) eqn:E; auto.
  intros [= <-]. eapply scanSchedule_open; eauto.
Qed.

Lemma parseSimpleHours_labelled o c now : well_labelled (parseSimpleHours o c now).
Proof. unfold well_labelled, parseSimpleHours. simpl. auto. Qed.

Lemma parseComplexHours_labelled hs now : well_labelled (parseComplexHours hs now).
Proof.
  unfold parseComplexHours.
  destruct (dailyHours _ _) as [st|] eqn:D.
  - unfold dailyHours in D. destruct (includes _ _); [|discriminate].
    destruct (matchAll _ _) as [|openStr [|closeStr more]]; try discriminate.
    injection D as <-. split; reflexivity.
  - destruct (scanSchedules _ _ _) as [st|] eqn:E.
    + apply scanSchedules_open in E as [closeStr ->]. split; reflexivity.
    + split; reflexivity.
Qed.

(** C8: whichever path evaluates the descriptor (Simple, Daily shorthand,
    day-qualified), the status has [statusText] "Open Now" and
    [statusColor] 'text-green-600' when [isOpen] is true, "Closed" and
    'text-red-600' when it is false, and nothing else. *)
Theorem C8_status_text_and_color_follow_isOpen :
  (forall o c now, well_labelled (getRestaurantStatus o c now)) /\
  (forall o c now, well_labelled (parseSimpleHours o c now)) /\
  (forall hs now, well_labelled (parseComplexHours hs now)).
Proof.
  split; [|split].
  - intros o c now. unfold getRestaurantStatus.
    destruct (detectHoursFormat o c);
      [apply parseSimpleHours_labelled | apply parseComplexHours_labelled].
  - exact parseSimpleHours_labelled.
  - exact parseComplexHours_labelled.
Qed.

(* ----------------------------------------------------------------- *)
(** *** Day ranges *)

Lemma isDayInRange_numbers day start end_ :
  isDayInRange (Some day) (Some start) (Some end_) =
  if start <=? end_ then (start <=? day) && (day <=? end_)
  else (start <=? day) || (day <=? end_).
Proof. reflexivity. Qed.

(** C5: for a day and bounds in 0..6, a range with [start <= end_] contains
    the day exactly when [start <= day <= end_], and a range with
    [start > end_] wraps the week and contains it exactly when
    [day >= start] or [day <= end_]; "Fri-Sun: 11AM-10PM" is open on Friday,
    Saturday and Sunday at 7 PM and closed on Monday at 7 PM. *)
Theorem C5_isDayInRange_wraps_the_week :
  forall day start end_,
    0 <= day <= 6 -> 0 <= start <= 6 -> 0 <= end_ <= 6 ->
    (start <= end_ ->
     (isDayInRange (Some day) (Some start) (Some end_) = true <-> start <= day <= end_)) /\
    (start > end_ ->
     (isDayInRange (Some day) (Some start) (Some end_) = true <-> day >= start \/ day <= end_)) /\
    isOpen (getRestaurantStatus "Fri-Sun: 11AM-10PM" "" (mkDate 5 19 0)) = true /\
    isOpen (getRestaurantStatus "Fri-Sun: 11AM-10PM" "" (mkDate 6 19 0)) = true /\
    isOpen (getRestaurantStatus "Fri-Sun: 11AM-10PM" "" (mkDate 0 19 0)) = true /\
    isOpen (getRestaurantStatus "Fri-Sun: 11AM-10PM" "" (mkDate 1 19 0)) = false.
Proof.
  intros day start end_ _ _ _. rewrite isDayInRange_numbers.
  split; [|split].
  - intros Hle. apply Z.leb_le in Hle as Hb. rewrite Hb.
    rewrite andb_true_iff, !Z.leb_le. reflexivity.
  - intros Hgt. destruct (Z.leb_spec start end_) as [Hle|_]; [lia|].
    rewrite orb_true_iff, !Z.leb_le. lia.
  - repeat split; vm_compute; reflexivity.
Qed.

Lemma C5_witness :
  isDayInRange (Some 6) (Some 5) (Some 0) = true <-> 6 >= 5 \/ 6 <= 0.
Proof.
  exact (proj1 (proj2 (C5_isDayInRange_wraps_the_week 6 5 0
                          ltac:(lia) ltac:(lia) ltac:(lia))) ltac:(lia)).
Defined.

(* ----------------------------------------------------------------- *)
(** *** Strings *)

Lemma append_nil_r s : s ++ "" = s.
Proof. induction s; simpl; congruence. Qed.

Lemma append_assoc s1 s2 s3 : (s1 ++ s2) ++ s3 = s1 ++ (s2 ++ s3).
Proof. induction s1; simpl; congruence. Qed.

Lemma prefix_short needle s :
  (String.length s < String.length needle)%nat -> prefix needle s = false.
Proof.
  revert needle. induction s as [|a s IH]; intros [|b needle] H; simpl in *; try lia; auto.
  destruct (ascii_dec b a); [apply IH; lia|reflexivity].
Qed.

Lemma includes_short needle s :
  (String.length s < String.length needle)%nat -> includes needle s = false.
Proof.
  induction s as [|a s IH]; intros H.
  - cbn [includes]. rewrite prefix_short by exact H. reflexivity.
  - cbn [includes]. rewrite prefix_short by exact H. apply IH. simpl in H. lia.
Qed.

Lemma includes_char sep a s :
  includes (String sep "") (String a s) = (a =? sep)%char || includes (String sep "") s.
Proof.
  simpl. destruct (ascii_dec sep a) as [->|N].
  - rewrite Ascii.eqb_refl. destruct s; reflexivity.
  - destruct (Ascii.eqb_spec a sep); [congruence|reflexivity].
Qed.

Lemma split_before_after sep s :
  split sep s =
  before sep s :: (if includes (String sep "") s then split sep (after sep s) else []).
Proof.
  induction s as [|a s IH]; [reflexivity|].
  rewrite includes_char. cbn [split before after].
  destruct (a =? sep)%char; [reflexivity|].
  rewrite IH. reflexivity.
Qed.

Lemma split_nonempty sep s : split sep s <> [].
Proof. rewrite split_before_after. discriminate. Qed.

(** [split] cuts at the first separator and goes on with what follows. *)
Lemma split_parts sep s :
  split sep s =
  if includes (String sep "") s then before sep s :: split sep (after sep s) else [s].
Proof.
  rewrite split_before_after. destruct (includes _ s) eqn:E; [reflexivity|].
  f_equal. induction s as [|a s IH]; [reflexivity|].
  rewrite includes_char in E. apply orb_false_elim in E as [E1 E2].
  cbn [before]. rewrite E1, IH; auto.
Qed.

(** [join] undoes [split]. *)
Lemma join_split sep s : join (String sep "") (split sep s) = s.
Proof.
  unfold join. induction s as [|a s IH]; [reflexivity|].
  cbn [split]. pose proof (split_nonempty sep s) as NE.
  destruct (Ascii.eqb_spec a sep) as [->|N]; destruct (split sep s) as [|p ps]; try congruence.
  - rewrite <- IH. reflexivity.
  - rewrite <- IH. destruct ps; reflexivity.
Qed.

Lemma join_after sep s part1 parts :
  split sep (after sep s) = part1 :: parts ->
  join (String sep "") (part1 :: parts) = after sep s.
Proof. intros <-. apply join_split. Qed.

Lemma compare_refl s : String.compare s s = Eq.
Proof.
  induction s as [|a s IH]; [reflexivity|].
  simpl. unfold Ascii.compare. rewrite N.compare_refl. exact IH.
Qed.

Lemma leb_refl s : String.leb s s = true.
Proof. unfold String.leb. rewrite compare_refl. reflexivity. Qed.

Lemma ltb_negb_leb s1 s2 : String.ltb s1 s2 = negb (String.leb s2 s1).
Proof.
  unfold String.ltb, String.leb. rewrite (String.compare_antisym s1 s2).
  destruct (String.compare s2 s1); reflexivity.
Qed.

Lemma find_none_all {A} (f : A -> bool) l :
  (forall x, In x l -> f x = false) -> find f l = None.
Proof.
  induction l as [|x l IH]; intros H; [reflexivity|].
  simpl. rewrite (H x) by (left; reflexivity). apply IH. intros y Hy. apply H. right. exact Hy.
Qed.


(* ----------------------------------------------------------------- *)
(** *** The classes of the time pattern are disjoint *)

Ltac by_cases_on_ascii a :=
  destruct a as [[] [] [] [] [] [] [] []]; vm_compute; try discriminate;
  intros; repeat split; reflexivity.

Lemma digit_facts a :
  is_digit a = true ->
  is_space a = false /\ is_char ":" a = false /\ is_char "-" a = false /\
  is_char "+" a = false /\ is_letter_ci "A" a = false /\ is_letter_ci "P" a = false.
Proof. by_cases_on_ascii a. Qed.

Lemma space_facts a : is_space a = true -> is_digit a = false /\ is_char ":" a = false.
Proof. by_cases_on_ascii a. Qed.

Lemma letterA_facts a :
  is_letter_ci "A" a = true ->
  is_digit a = false /\ is_space a = false /\ is_char ":" a = false /\
  is_letter_ci "P" a = false /\ upper_char a = "A"%char.
Proof. by_cases_on_ascii a. Qed.

Lemma letterP_facts a :
  is_letter_ci "P" a = true ->
  is_digit a = false /\ is_space a = false /\ is_char ":" a = false /\
  is_letter_ci "A" a = false /\ upper_char a = "P"%char.
Proof. by_cases_on_ascii a. Qed.

Lemma letterM_facts a : is_letter_ci "M" a = true -> upper_char a = "M"%char.
Proof. by_cases_on_ascii a. Qed.

(** Every class fact that follows from the hypotheses on the characters of
    a token. *)
Ltac token_facts :=
  repeat match goal with
         | H : is_digit ?a = true |- _ =>
             lazymatch goal with
             | _ : is_space a = false |- _ => fail
             | _ => pose proof (digit_facts a H) as (? & ? & ? & ? & ? & ?)
             end
         | H : is_space ?a = true |- _ =>
             lazymatch goal with
             | _ : is_digit a = false |- _ => fail
             | _ => pose proof (space_facts a H) as (? & ?)
             end
         | H : is_letter_ci "A" ?a = true |- _ =>
             lazymatch goal with
             | _ : is_digit a = false |- _ => fail
             | _ => pose proof (letterA_facts a H) as (? & ? & ? & ? & ?)
             end
         | H : is_letter_ci "P" ?a = true |- _ =>
             lazymatch goal with
             | _ : is_digit a = false |- _ => fail
             | _ => pose proof (letterP_facts a H) as (? & ? & ? & ? & ?)
             end
         end.

Ltac use_facts :=
  repeat (simpl;
          match goal with
          | H : ?p ?a = _ |- context [?p ?a] => rewrite H
          end).

(* ----------------------------------------------------------------- *)
(** *** The matcher on the time pattern *)

Lemma run_seq {R} r1 r2 pos w s cs (k : @cont R) :
  run (Seq r1 r2) pos w s cs k =
  run r1 pos w s cs (fun pos' w' s' cs' => run r2 pos' w' s' cs' k).
Proof. reflexivity. Qed.

Lemma run_opt_seq {R} r1 r2 pos w s cs (k : @cont R) x :
  run (Seq (Opt r1) r2) pos w s cs k = Some x ->
  run r1 pos w s cs (fun pos' w' s' cs' => run r2 pos' w' s' cs' k) = Some x \/
  run r2 pos w s cs k = Some x.
Proof.
  cbn [run]. destruct (run r1 _ _ _ _ _) eqn:E; intros H; [left; congruence|right; exact H].
Qed.

Lemma cls_sound {R} p pos w s cs (k : @cont R) x :
  run (Cls p) pos w s cs k = Some x ->
  exists a rest, s = String a rest /\ p a = true /\ k (S pos) (w ++ String a "") rest cs = Some x.
Proof.
  cbn [run]. destruct s as [|a rest]; [discriminate|].
  destruct (p a) eqn:Pa; [|discriminate]. eauto.
Qed.

(** The greedy star takes a whole run of the class when what follows it
    lets the match go on. *)
Lemma star_greedy {R} p ws rest pos w cs (k : @cont R) x :
  all_chars p ws = true ->
  match rest with String a _ => p a = false | EmptyString => True end ->
  k (pos + String.length ws)%nat (w ++ ws) rest cs = Some x ->
  star p pos w (ws ++ rest) cs k = Some x.
Proof.
  revert pos w. induction ws as [|b ws IH]; intros pos w Hall Hrest Hk.
  - rewrite Nat.add_0_r, append_nil_r in Hk. simpl.
    destruct rest as [|a rest]; simpl; [exact Hk|]. rewrite Hrest. exact Hk.
  - simpl in Hall. apply andb_prop in Hall as [Hb Hall].
    simpl. rewrite Hb.
    rewrite (IH (S pos) (w ++ String b "") Hall Hrest); [reflexivity|].
    rewrite append_assoc. simpl in *.
    replace (S (pos + String.length ws))%nat with (pos + S (String.length ws))%nat by lia.
    exact Hk.
Qed.

(** Whatever the star ends up taking is a run of the class. *)
Lemma star_sound {R} p pos w s cs (k : @cont R) x :
  star p pos w s cs k = Some x ->
  exists ws rest pos',
    s = ws ++ rest /\ all_chars p ws = true /\ k pos' (w ++ ws) rest cs = Some x.
Proof.
  revert pos w. induction s as [|a s IH]; intros pos w; simpl.
  - intros H. exists "", "", pos. rewrite (append_nil_r w). auto.
  - destruct (p a) eqn:Pa.
    + destruct (star p (S pos) (w ++ String a "") s cs k) as [y|] eqn:E.
      * intros [= ->]. apply IH in E as (ws & rest & pos' & -> & Hall & Hk).
        exists (String a ws), rest, pos'. simpl. rewrite Pa, Hall.
        rewrite append_assoc in Hk. auto.
      * intros H. exists "", (String a s), pos. rewrite (append_nil_r w). auto.
    + intros H. exists "", (String a s), pos. rewrite (append_nil_r w). auto.
Qed.

Lemma hour_sound {R} pos w s cs (k : @cont R) x :
  run hourGroup pos w s cs k = Some x ->
  exists ht hu rest pos',
    let g := match ht with Some d => String d (String hu "") | None => String hu "" end in
    s = g ++ rest /\
    match ht with Some d => is_digit d = true | None => True end /\
    is_digit hu = true /\
    k pos' (w ++ g) rest ((1%nat, g) :: cs) = Some x.
Proof.
  unfold hourGroup, rep_1_2. destruct s as [|d1 rest]; simpl; [discriminate|].
  destruct (is_digit d1) eqn:D1; [|discriminate].
  destruct rest as [|d2 rest]; simpl.
  - intros H. exists None, d1, "", (S pos). auto.
  - destruct (is_digit d2) eqn:D2.
    + destruct (k _ _ rest _) eqn:K.
      * intros [= ->]. exists (Some d1), d2, rest, (S (S pos)). auto.
      * intros H. exists None, d1, (String d2 rest), (S pos). auto.
    + intros H. exists None, d1, (String d2 rest), (S pos). auto.
Qed.

Lemma minute_sound {R} pos w s cs (k : @cont R) x :
  run minuteGroup pos w s cs k = Some x ->
  exists d1 d2 rest pos',
    s = String d1 (String d2 rest) /\
    is_digit d1 = true /\ is_digit d2 = true /\
    k pos' (w ++ String d1 (String d2 "")) rest ((2%nat, String d1 (String d2 "")) :: cs) = Some x.
Proof.
  unfold minuteGroup, rep_2. destruct s as [|d1 [|d2 rest]]; simpl.
  - discriminate.
  - destruct (is_digit d1); discriminate.
  - destruct (is_digit d1) eqn:D1, (is_digit d2) eqn:D2; try discriminate.
    intros H. exists d1, d2, rest, (S (S pos)). auto.
Qed.

Lemma period_sound {R} pos w s cs (k : @cont R) x :
  run periodGroup pos w s cs k = Some x ->
  exists l1 l2 rest pos',
    s = String l1 (String l2 rest) /\
    (is_letter_ci "A" l1 = true \/ is_letter_ci "P" l1 = true) /\
    is_letter_ci "M" l2 = true /\
    k pos' (w ++ String l1 (String l2 "")) rest ((3%nat, String l1 (String l2 "")) :: cs) = Some x.
Proof.
  unfold periodGroup. destruct s as [|l1 [|l2 rest]]; simpl.
  - discriminate.
  - destruct (is_letter_ci "A" l1), (is_letter_ci "P" l1); discriminate.
  - destruct (is_letter_ci "A" l1) eqn:A, (is_letter_ci "P" l1) eqn:P,
      (is_letter_ci "M" l2) eqn:M; simpl; try discriminate.
    all: try (destruct (k _ _ _ _) eqn:K; [|discriminate]).
    all: intros H; exists l1, l2, rest, (S (S pos)); repeat split; auto; congruence.
Qed.

Lemma spaces_period_sound {R} pos w s cs (k : @cont R) x :
  run (Seq (Star is_space) periodGroup) pos w s cs k = Some x ->
  exists ws l1 l2 rest pos',
    s = ws ++ String l1 (String l2 rest) /\
    all_chars is_space ws = true /\
    (is_letter_ci "A" l1 = true \/ is_letter_ci "P" l1 = true) /\
    is_letter_ci "M" l2 = true /\
    k pos' (w ++ ws ++ String l1 (String l2 "")) rest
      ((3%nat, String l1 (String l2 "")) :: cs) = Some x.
Proof.
  cbn [run]. intros H.
  apply star_sound in H as (ws & rest0 & pos0 & -> & Hws & H).
  apply period_sound in H as (l1 & l2 & rest & pos' & -> & H1 & H2 & H).
  exists ws, l1, l2, rest, pos'. rewrite append_assoc in H. auto 6.
Qed.

(** Soundness: a match of [timePattern] is a time token at the head of the
    input, with the groups of that token. *)
Lemma match_at_sound pos s m :
  match_at timePattern pos s = Some m ->
  exists tk rest,
    well_formed tk /\ s = token_text tk ++ rest /\
    m = mkMatch (token_text tk) (token_groups tk).
Proof.
  unfold match_at, timePattern. rewrite run_seq. intros H.
  apply hour_sound in H as (ht & hu & s1 & pos1 & Hs & Hht & Hhu & H).
  cbn beta zeta in *. subst s.
  apply run_opt_seq in H as [H|H];
    [apply cls_sound in H as (c & s2 & -> & Hc & H); apply is_char_eq in Hc; subst c|];
    (apply run_opt_seq in H as [H|H];
     [apply minute_sound in H as (d1 & d2 & s3 & pos3 & -> & Hd1 & Hd2 & H)|]);
    apply spaces_period_sound in H as (ws & l1 & l2 & rest & pos' & -> & Hws & Hl1 & Hl2 & H);
    injection H as <-;
    [exists (mkToken ht hu true (Some (d1, d2)) ws l1 l2), rest
    |exists (mkToken ht hu true None ws l1 l2), rest
    |exists (mkToken ht hu false (Some (d1, d2)) ws l1 l2), rest
    |exists (mkToken ht hu false None ws l1 l2), rest].
  all: split; [repeat split; assumption|].
  all: unfold token_text, token_groups, hour_text, minute_text, period_text.
  all: cbn [hour_tens hour_units colon minute spaces letter1 letter2].
  all: destruct ht; simpl; rewrite ?append_assoc; auto.
Qed.

(** Completeness: on the text of a token the attempt succeeds, takes the
    whole text and captures the pieces of the token. *)
Lemma match_at_token tk pos :
  well_formed tk ->
  match_at timePattern pos (token_text tk) = Some (mkMatch (token_text tk) (token_groups tk)).
Proof.
  destruct tk as [ht hu col mi ws l1 l2].
  unfold well_formed, token_text, token_groups, hour_text, minute_text, period_text.
  cbn [hour_tens hour_units colon minute spaces letter1 letter2].
  intros (Hht & Hhu & Hmi & Hws & Hl1 & Hl2).
  unfold match_at, timePattern, hourGroup, minuteGroup, periodGroup, rep_1_2, rep_2.
  destruct ht as [ht|], col, mi as [[m1 m2]|];
    try match type of Hmi with _ /\ _ => destruct Hmi as [Hm1 Hm2] end;
    (destruct ws as [|sp ws]; [|simpl in Hws; apply andb_prop in Hws as [Hsp Hws]]);
    destruct Hl1 as [Hl1|Hl1]; token_facts.
  all: use_facts.
  all: try reflexivity.
  all: erewrite star_greedy; [ | eassumption | simpl; assumption | use_facts; reflexivity ].
  all: use_facts; reflexivity.
Qed.

Lemma exec_from_hit r pos s m : match_at r pos s = Some m -> exec_from r pos s = Some m.
Proof. intros H. destruct s; simpl; rewrite H; reflexivity. Qed.


Lemma matchAll_from_sound r t s pos skip :
  In t (matchAll_from r pos s skip) ->
  exists pos' s' m, match_at r pos' s' = Some m /\ t = m_text m.
Proof.
  revert pos skip. induction s as [|a s IH]; intros pos skip.
  - destruct skip; simpl; [|intros []].
    destruct (match_at r pos "") eqn:E; simpl; [|intros []].
    intros [<-|[]]. eauto.
  - destruct skip; simpl; [|apply IH].
    destruct (match_at r pos (String a s)) eqn:E; [|apply IH].
    simpl. intros [<-|H]; [eauto|]. eapply IH; eauto.
Qed.

(* ----------------------------------------------------------------- *)
(** *** parseTimeToMinutes *)

Lemma parseInt_digit a : is_digit a = true -> parseInt (String a "") = Some (digit_value a).
Proof.
  intros H. destruct (digit_facts a H) as (Hs & _ & Hm & Hp & _).
  unfold parseInt. cbn [trimStart]. rewrite Hs, Hm, Hp, H.
  cbn [digits_value]. rewrite H. f_equal; lia.
Qed.

Lemma parseInt_digits a b :
  is_digit a = true -> is_digit b = true ->
  parseInt (String a (String b "")) = Some (10 * digit_value a + digit_value b).
Proof.
  intros H Hb. destruct (digit_facts a H) as (Hs & _ & Hm & Hp & _).
  unfold parseInt. cbn [trimStart]. rewrite Hs, Hm, Hp, H.
  cbn [digits_value]. rewrite H, Hb. f_equal; lia.
Qed.

(** What [parseTimeToMinutes] computes from the groups of a token. *)
Lemma minutes_of_match s tk :
  well_formed tk ->
  exec timePattern s = Some (mkMatch (token_text tk) (token_groups tk)) ->
  parseTimeToMinutes s = Some (token_minutes tk).
Proof.
  intros Hwf Hexec. unfold parseTimeToMinutes. rewrite Hexec.
  destruct tk as [ht hu col mi ws l1 l2]. unfold well_formed in Hwf.
  cbn [hour_tens hour_units colon minute spaces letter1 letter2] in *.
  destruct Hwf as (Hht & Hhu & Hmi & Hws & Hl1 & Hl2).
  unfold token_minutes, token_hour, token_minute, token_period, group,
    token_groups, hour_text, minute_text, period_text.
  cbn [hour_tens hour_units colon minute spaces letter1 letter2 m_groups].
  pose proof (letterM_facts l2 Hl2) as Hu2.
  assert (Hmin :
    match capture 2 ((3%nat, String l1 (String l2 "")) ::
                     match match mi with
                           | Some (d1, d2) => Some (String d1 (String d2 ""))
                           | None => None
                           end
                     with Some g => [(2%nat, g)] | None => [] end ++
                     [(1%nat, match ht with
                              | Some d => String d (String hu "")
                              | None => String hu ""
                              end)])
    with Some (String a g) => parseInt (String a g) | _ => Some 0 end
    = Some match mi with
           | Some (d1, d2) => 10 * digit_value d1 + digit_value d2
           | None => 0
           end).
  { destruct mi as [[m1 m2]|]; simpl; [|destruct ht; reflexivity].
    destruct Hmi. apply parseInt_digits; assumption. }
  rewrite Hmin. clear Hmin.
  assert (Hhour :
    parseInt match capture 1 ((3%nat, String l1 (String l2 "")) ::
                     match match mi with
                           | Some (d1, d2) => Some (String d1 (String d2 ""))
                           | None => None
                           end
                     with Some g => [(2%nat, g)] | None => [] end ++
                     [(1%nat, match ht with
                              | Some d => String d (String hu "")
                              | None => String hu ""
                              end)])
             with Some g => g | None => "undefined" end
    = Some match ht with
           | Some d => 10 * digit_value d + digit_value hu
           | None => digit_value hu
           end).
  { destruct mi as [[m1 m2]|], ht; simpl; auto using parseInt_digit, parseInt_digits. }
  rewrite Hhour. clear Hhour.
  cbn [capture Nat.eqb toUpperCase]. rewrite Hu2.
  destruct Hl1 as [Hl1|Hl1].
  - destruct (letterA_facts l1 Hl1) as (_ & _ & _ & _ & ->). rewrite Hl1.
    change ("AM" =? "PM")%string with false. change ("AM" =? "AM")%string with true.
    cbn [andb num_is]. destruct (_ =? 12); reflexivity.
  - destruct (letterP_facts l1 Hl1) as (_ & _ & _ & -> & ->).
    change ("PM" =? "PM")%string with true. change ("PM" =? "AM")%string with false.
    cbn [andb num_is negb]. destruct (_ =? 12) eqn:E; [|reflexivity].
    apply Z.eqb_eq in E. cbn [negb andb]. rewrite E. reflexivity.
Qed.

Lemma parseTimeToMinutes_token tk :
  well_formed tk -> parseTimeToMinutes (token_text tk) = Some (token_minutes tk).
Proof.
  intros Hwf. apply minutes_of_match; [exact Hwf|].
  apply exec_from_hit, match_at_token, Hwf.
Qed.




(* ----------------------------------------------------------------- *)
(** *** Day parts *)

Lemma dayMap_not_null name : not_null (dayMap name) = true.
Proof.
  unfold dayMap.
  repeat match goal with |- context [if ?b then _ else _] => destruct b; [reflexivity|] end.
  reflexivity.
Qed.

Lemma dayMap_unresolved name : resolves name = false -> dayMap name = VUndefined.
Proof.
  unfold resolves, dayMap.
  repeat match goal with |- context [if ?b then _ else _] => destruct b; [discriminate|] end.
  reflexivity.
Qed.

Lemma dayBounds_names tok : dayBounds tok = (dayMap (startName tok), dayMap (endName tok)).
Proof.
  unfold dayBounds, startName, endName. destruct (includes "-" tok) eqn:E; [|reflexivity].
  rewrite split_parts, E. cbn [map].
  rewrite split_before_after. cbn [map]. reflexivity.
Qed.

(* ----------------------------------------------------------------- *)
(** *** The loops of the day-qualified path *)

(** One turn of the outer loop, read on the clause. *)
Lemma scanSchedule_clause day t clause :
  scanSchedule (Some day) t clause =
  if dayMatches day clause
  then scanTimeRanges t (map trim (split "&" (timePartOf clause)))
  else None.
Proof.
  unfold scanSchedule, dayMatches, dayPartOf, timePartOf.
  rewrite split_parts. destruct (includes ":" clause) eqn:E; [|reflexivity].
  destruct (split ":" (after ":" clause)) as [|part1 parts] eqn:S;
    [exfalso; eapply split_nonempty; eauto|].
  rewrite (join_after _ _ _ _ S).
  rewrite dayBounds_names, !dayMap_not_null. reflexivity.
Qed.

(** The inner loop returns at the first interval that contains the time. *)
Lemma scanTimeRanges_find t pieces :
  scanTimeRanges (Some t) pieces =
  match find (covers t) (flat_map intervalOf pieces) with
  | Some iv => Some (openStatus (snd iv))
  | None => None
  end.
Proof.
  induction pieces as [|piece pieces IH]; [reflexivity|].
  cbn [scanTimeRanges flat_map]. unfold intervalOf at 1.
  destruct (matchAll timePattern piece) as [|openStr [|closeStr more]]; auto.
  cbn [app find]. unfold covers at 1. cbn [fst snd]. unfold num_ge.
  destruct (_ && _); auto.
Qed.

Lemma scanSchedule_intervals day t clause :
  dayMatches day clause = true ->
  scanSchedule (Some day) (Some t) clause =
  match find (covers t) (intervals clause) with
  | Some iv => Some (openStatus (snd iv))
  | None => None
  end.
Proof. intros H. rewrite scanSchedule_clause, H. apply scanTimeRanges_find. Qed.

Lemma scanSchedule_undecided day t clause :
  undecided day t clause <-> scanSchedule (Some day) (Some t) clause = None.
Proof.
  split.
  - intros [H|H].
    + rewrite scanSchedule_clause, H. reflexivity.
    + destruct (dayMatches day clause) eqn:D; [|rewrite scanSchedule_clause, D; reflexivity].
      rewrite scanSchedule_intervals, find_none_all; auto.
  - intros H. destruct (dayMatches day clause) eqn:D; [right|left; exact D].
    rewrite scanSchedule_intervals in H by exact D.
    destruct (find (covers t) (intervals clause)) eqn:F; [discriminate|].
    intros iv Hiv. exact (find_none _ _ F iv Hiv).
Qed.


Lemma scanSchedules_none day t schedules :
  scanSchedules (Some day) (Some t) schedules = None <->
  forall c, In c schedules -> undecided day t c.
Proof.
  induction schedules as [|c schedules IH]; cbn [scanSchedules].
  - split; [intros _ c []|reflexivity].
  - destruct (scanSchedule (Some day) (Some t) c) eqn:E.
    + split; [discriminate|]. intros H.
      assert (U : undecided day t c) by (apply H; left; reflexivity).
      apply scanSchedule_undecided in U. congruence.
    + rewrite IH. split.
      * intros H c' [<-|Hc']; [apply scanSchedule_undecided; exact E|auto].
      * intros H c' Hc'. apply H. right. exact Hc'.
Qed.

Lemma dailyHours_day_qualified hs t : day_qualified hs -> dailyHours hs t = None.
Proof.
  unfold dailyHours. intros [->|H]; [reflexivity|].
  destruct (includes _ _); [|reflexivity].
  destruct (matchAll timePattern hs) as [|openStr [|closeStr more]]; try reflexivity.
  simpl in H. lia.
Qed.



(** A clause whose two names both fail to resolve has no day in its range,
    whatever the current day is. *)
Lemma scanSchedule_unresolved day t clause :
  resolves (startName (dayPartOf clause)) = false ->
  resolves (endName (dayPartOf clause)) = false ->
  scanSchedule day t clause = None.
Proof.
  intros Hs He. unfold scanSchedule.
  rewrite split_parts. destruct (includes ":" clause); [|reflexivity].
  destruct (split ":" (after ":" clause)) as [|part1 parts]; [reflexivity|].
  fold (dayPartOf clause). rewrite dayBounds_names.
  rewrite (dayMap_unresolved _ Hs), (dayMap_unresolved _ He).
  cbn [not_null toNumber andb]. unfold isDayInRange, num_ge, num_le.
  destruct day; reflexivity.
Qed.

(** C4, as the code has it: a day part with a hyphen is cut at every hyphen
    and its first two pieces, trimmed, are resolved as the start and the end
    of the range (of "mon-tue-wed" the end is "tue", and "wed" is dropped);
    without a hyphen both bounds are the single resolved day; a day part
    none of whose names resolves gives a clause that matches no day, and
    nothing is thrown. *)
Theorem C4_day_part_bounds :
  (forall token,
      dayBounds token =
      if includes "-" token
      then (dayMap (trim (before "-" token)), dayMap (trim (before "-" (after "-" token))))
      else (dayMap token, dayMap token)) /\
  dayBounds "mon-tue-wed" = (VNum 1, VNum 2) /\
  (forall clause,
      resolves (startName (dayPartOf clause)) = false ->
      resolves (endName (dayPartOf clause)) = false ->
      forall day t,
        dayMatches day clause = false /\ forall d, scanSchedule d t clause = None).
Proof.
  split; [|split].
  - intros token. rewrite dayBounds_names. unfold startName, endName.
    destruct (includes "-" token); reflexivity.
  - reflexivity.
  - intros clause Hs He day t. split.
    + unfold dayMatches. rewrite dayBounds_names.
      rewrite (dayMap_unresolved _ Hs), (dayMap_unresolved _ He).
      apply andb_false_r.
    + intros d. apply scanSchedule_unresolved; assumption.
Qed.

Lemma C4_witness :
  dayMatches 2 "Funday-Someday: 11AM-10PM" = false /\
  forall d, scanSchedule d (Some 840) "Funday-Someday: 11AM-10PM" = None.
Proof.
  exact (proj2 (proj2 C4_day_part_bounds) "Funday-Someday: 11AM-10PM"
               eq_refl eq_refl 2 (Some 840)).
Defined.

(** Split once on its first hyphen, "mon-tue-wed" would end at the
    unresolvable "tue-wed" and match no day; the code takes Monday to Tuesday
    and finds the clause open on a Tuesday.  And "Foo-Wed", whose start does
    not resolve, is not a clause that never matches: it is open on a
    Tuesday. *)
Lemma C4_counterexample :
  resolveRange_split_once "mon-tue-wed" = (VNum 1, VUndefined) /\
  dayBounds "mon-tue-wed" = (VNum 1, VNum 2) /\
  getRestaurantStatus "Mon-Tue-Wed: 11AM-10PM" "" (mkDate 2 14 0) = openStatus "10PM" /\
  resolves "foo" = false /\
  dayMatches 2 "Foo-Wed: 11AM-10PM" = true /\
  getRestaurantStatus "Foo-Wed: 11AM-10PM" "" (mkDate 2 14 0) = openStatus "10PM".
Proof. repeat split; vm_compute; reflexivity. Qed.

(* ----------------------------------------------------------------- *)
(** *** The Simple path *)

(** Two decimal digits, the first one [0] below ten. *)
Lemma padStart0_two_digits n :
  0 <= n <= 59 ->
  padStart0 2 (toString n) =
  String (digit_char (n / 10)) (String (digit_char (n mod 10)) "").
Proof.
  intros [Hlo Hhi]. destruct n as [|p|p]; [reflexivity| |lia].
  do 6 (try destruct p as [p|p|]); try lia; reflexivity.
Qed.

Lemma currentTimeString_zero_padded now :
  valid_date now ->
  currentTimeString now =
  String (digit_char (getHours now / 10))
    (String (digit_char (getHours now mod 10))
       (String ":"
          (String (digit_char (getMinutes now / 10))
             (String (digit_char (getMinutes now mod 10)) "")))).
Proof.
  intros (_ & Hh & Hm). unfold currentTimeString.
  rewrite !padStart0_two_digits by lia. reflexivity.
Qed.

Lemma getRestaurantStatus_simple o c now :
  is_simple_time o -> is_simple_time c ->
  getRestaurantStatus o c now = parseSimpleHours o c now.
Proof.
  intros Ho Hc. unfold getRestaurantStatus.
  rewrite (proj2 (detect_simple_iff o c) (conj Ho Hc)). reflexivity.
Qed.

(** C2, as the code has it: for Simple-format strings [opening] and
    [closing] the current time is formatted as a zero-padded "HH:MM" string
    and [isOpen] is [opening <= now <= closing] in the order of strings, both
    bounds included (so [now] equal to [opening] or to [closing] is open
    whenever [opening <= closing]); [nextChange] is "Closes at " and the
    12-hour closing time when open, otherwise "Opens at " and the 12-hour
    opening time when [now < opening], and it is absent exactly when
    [now > closing] and [now >= opening]. *)
Theorem C2_simple_hours_status :
  forall opening closing now,
    is_simple_time opening -> is_simple_time closing -> valid_date now ->
    currentTimeString now =
    String (digit_char (getHours now / 10))
      (String (digit_char (getHours now mod 10))
         (String ":"
            (String (digit_char (getMinutes now / 10))
               (String (digit_char (getMinutes now mod 10)) "")))) /\
    isOpen (getRestaurantStatus opening closing now) =
    String.leb opening (currentTimeString now) && String.leb (currentTimeString now) closing /\
    nextChange (getRestaurantStatus opening closing now) =
    (if String.leb opening (currentTimeString now) && String.leb (currentTimeString now) closing
     then Some ("Closes at " ++ convertTo12Hour closing)
     else if String.ltb (currentTimeString now) opening
          then Some ("Opens at " ++ convertTo12Hour opening)
          else None) /\
    (nextChange (getRestaurantStatus opening closing now) = None <->
     String.ltb closing (currentTimeString now) = true /\
     String.leb opening (currentTimeString now) = true) /\
    (currentTimeString now = opening ->
     isOpen (getRestaurantStatus opening closing now) = String.leb opening closing) /\
    (currentTimeString now = closing ->
     isOpen (getRestaurantStatus opening closing now) = String.leb opening closing).
Proof.
  intros opening closing now Ho Hc Hnow.
  rewrite (getRestaurantStatus_simple _ _ now Ho Hc).
  split; [apply currentTimeString_zero_padded; exact Hnow|].
  unfold parseSimpleHours. cbn [isOpen nextChange].
  split; [reflexivity|]. split; [reflexivity|].
  split; [|split].
  - rewrite !ltb_negb_leb.
    destruct (String.leb opening (currentTimeString now)),
      (String.leb (currentTimeString now) closing); cbn;
      split; try discriminate; intuition discriminate.
  - intros ->. rewrite leb_refl. reflexivity.
  - intros ->. rewrite leb_refl. apply andb_true_r.
Qed.

Lemma C2_witness :
  nextChange (getRestaurantStatus "11:00" "22:00" (mkDate 2 14 0)) = Some "Closes at 10:00 PM".
Proof.
  exact (proj1 (proj2 (proj2
           (C2_simple_hours_status "11:00" "22:00" (mkDate 2 14 0)
              (simple_time_2 "1" "1" "0" "0" eq_refl eq_refl eq_refl eq_refl)
              (simple_time_2 "2" "2" "0" "0" eq_refl eq_refl eq_refl eq_refl)
              ltac:(unfold valid_date; simpl; lia))))).
Defined.

(** With "18:00" and "09:00" at noon the current time is after the closing
    time, and [nextChange] is not absent: it announces the opening.  At
    18:00 sharp the current time equals the opening time, and the status is
    closed. *)
Lemma C2_counterexample :
  detectHoursFormat "18:00" "09:00" = simple /\
  currentTimeString (mkDate 2 12 0) = "12:00" /\
  String.ltb "09:00" "12:00" = true /\
  nextChange (getRestaurantStatus "18:00" "09:00" (mkDate 2 12 0)) = Some "Opens at 6:00 PM" /\
  currentTimeString (mkDate 2 18 0) = "18:00" /\
  isOpen (getRestaurantStatus "18:00" "09:00" (mkDate 2 18 0)) = false.
Proof. repeat split; vm_compute; reflexivity. Qed.

(* ----------------------------------------------------------------- *)
(** *** The Daily shorthand *)

Lemma length_append s1 s2 :
  String.length (s1 ++ s2) = (String.length s1 + String.length s2)%nat.
Proof. induction s1; simpl; congruence. Qed.

Lemma toLowerCase_length s : String.length (toLowerCase s) = String.length s.
Proof. induction s; simpl; congruence. Qed.

(** A descriptor with "daily:" in it is never of the Simple format. *)
Lemma getRestaurantStatus_daily hs closing now :
  includes "daily:" (toLowerCase hs) = true ->
  getRestaurantStatus hs closing now = parseComplexHours hs now.
Proof.
  intros Hd. unfold getRestaurantStatus.
  destruct (detectHoursFormat hs closing) eqn:E; [|reflexivity].
  apply detect_simple_iff in E as [(h & m & -> & Hh & _ & Hm & _) _].
  rewrite includes_short in Hd; [discriminate|].
  rewrite toLowerCase_length, !length_append, Hm. simpl. lia.
Qed.

(** Every text the global match returns is the text of a time token. *)
Lemma matchAll_tokens s t :
  In t (matchAll timePattern s) ->
  exists tk, well_formed tk /\ t = token_text tk /\
             parseTimeToMinutes t = Some (token_minutes tk).
Proof.
  intros H. apply matchAll_from_sound in H as (pos' & s' & m & Hm & ->).
  apply match_at_sound in Hm as (tk & rest & Hwf & _ & ->).
  exists tk. split; [exact Hwf|]. split; [reflexivity|].
  apply parseTimeToMinutes_token, Hwf.
Qed.

Lemma dailyHours_tokens hs t openStr closeStr more :
  includes "daily:" (toLowerCase hs) = true ->
  matchAll timePattern hs = openStr :: closeStr :: more ->
  dailyHours hs (Some t) =
  Some (if covers t (openStr, closeStr)
        then mkStatus true "Open Now" "text-green-600" (Some ("Closes at " ++ closeStr))
        else mkStatus false "Closed" "text-red-600" (Some ("Opens at " ++ openStr))).
Proof.
  intros Hd Hm. unfold dailyHours. rewrite Hd, Hm.
  unfold covers, num_ge. cbn [fst snd]. destruct (_ && _); reflexivity.
Qed.

(** C3: when the descriptor contains "daily:" in any case and the pattern
    finds at least two time tokens in it, the first two found, wherever they
    stand and whatever else the string holds, are the opening and the closing
    time, and [isOpen] is true exactly when the current time in minutes since
    midnight lies between them, bounds included. *)
Theorem C3_daily_shorthand :
  forall hs closing now openStr closeStr more,
    includes "daily:" (toLowerCase hs) = true ->
    matchAll timePattern hs = openStr :: closeStr :: more ->
    exists tk1 tk2,
      well_formed tk1 /\ well_formed tk2 /\
      openStr = token_text tk1 /\ closeStr = token_text tk2 /\
      parseTimeToMinutes openStr = Some (token_minutes tk1) /\
      parseTimeToMinutes closeStr = Some (token_minutes tk2) /\
      (isOpen (getRestaurantStatus hs closing now) = true <->
       token_minutes tk1 <= minutesOf now <= token_minutes tk2) /\
      (isOpen (getRestaurantStatus hs closing now) = false <->
       ~ token_minutes tk1 <= minutesOf now <= token_minutes tk2).
Proof.
  intros hs closing now openStr closeStr more Hd Hm.
  destruct (matchAll_tokens hs openStr) as (tk1 & W1 & E1 & P1);
    [rewrite Hm; left; reflexivity|].
  destruct (matchAll_tokens hs closeStr) as (tk2 & W2 & E2 & P2);
    [rewrite Hm; right; left; reflexivity|].
  exists tk1, tk2. repeat (split; [assumption|]).
  rewrite (getRestaurantStatus_daily _ _ _ Hd). unfold parseComplexHours.
  fold (minutesOf now). rewrite (dailyHours_tokens _ _ _ _ _ Hd Hm).
  unfold covers. cbn [fst snd]. rewrite P1, P2. cbn [num_le].
  destruct (Z.leb_spec (token_minutes tk1) (minutesOf now)),
    (Z.leb_spec (minutesOf now) (token_minutes tk2)); cbn; split; split;
    try discriminate; try reflexivity; try lia; intros H'; exfalso; apply H'; lia.
Qed.

Lemma C3_witness :
  exists tk1 tk2,
    well_formed tk1 /\ well_formed tk2 /\
    "9AM" = token_text tk1 /\ "5:30PM" = token_text tk2 /\
    parseTimeToMinutes "9AM" = Some (token_minutes tk1) /\
    parseTimeToMinutes "5:30PM" = Some (token_minutes tk2) /\
    (isOpen (getRestaurantStatus "Mon-Fri: 9AM-5:30PM; Sat daily: 1PM-2PM" ""
                                 (mkDate 0 14 0)) = true <->
     token_minutes tk1 <= minutesOf (mkDate 0 14 0) <= token_minutes tk2) /\
    (isOpen (getRestaurantStatus "Mon-Fri: 9AM-5:30PM; Sat daily: 1PM-2PM" ""
                                 (mkDate 0 14 0)) = false <->
     ~ token_minutes tk1 <= minutesOf (mkDate 0 14 0) <= token_minutes tk2).
Proof.
  exact (C3_daily_shorthand "Mon-Fri: 9AM-5:30PM; Sat daily: 1PM-2PM" "" (mkDate 0 14 0)
           "9AM" "5:30PM" ["1PM"; "2PM"] eq_refl eq_refl).
Defined.

(** C10, as the code has it: on the Daily path (descriptor with "daily:" and
    at least two time tokens) a closed status always carries [nextChange] =
    "Opens at " and the first token as found, also when the current time is
    past the closing time; the Simple path gives no [nextChange] when the
    current time is past the closing time and the opening time is reached
    (past the closing time alone is not enough: before the opening time it
    announces the opening), and a closed status of the day-qualified path
    never has one. *)
Theorem C10_daily_closed_announces_opening :
  forall hs closing now openStr closeStr more,
    includes "daily:" (toLowerCase hs) = true ->
    matchAll timePattern hs = openStr :: closeStr :: more ->
    (isOpen (getRestaurantStatus hs closing now) = false ->
     getRestaurantStatus hs closing now =
     mkStatus false "Closed" "text-red-600" (Some ("Opens at " ++ openStr))) /\
    (forall close,
        parseTimeToMinutes closeStr = Some close -> close < minutesOf now ->
        getRestaurantStatus hs closing now =
        mkStatus false "Closed" "text-red-600" (Some ("Opens at " ++ openStr))) /\
    (forall o c now',
        is_simple_time o -> is_simple_time c ->
        String.ltb c (currentTimeString now') = true ->
        String.leb o (currentTimeString now') = true ->
        getRestaurantStatus o c now' = closedStatus) /\
    (forall hs' c now',
        detectHoursFormat hs' c = complex -> day_qualified hs' ->
        isOpen (getRestaurantStatus hs' c now') = false ->
        getRestaurantStatus hs' c now' = closedStatus).
Proof.
  intros hs closing now openStr closeStr more Hd Hm.
  rewrite (getRestaurantStatus_daily _ _ _ Hd). unfold parseComplexHours at 1 2 3.
  fold (minutesOf now). rewrite (dailyHours_tokens _ _ _ _ _ Hd Hm).
  split; [|split; [|split]].
  - destruct (covers _ _); [discriminate|reflexivity].
  - intros close Hclose Hlt. unfold covers. cbn [fst snd]. rewrite Hclose.
    cbn [num_le]. destruct (Z.leb_spec (minutesOf now) close); [lia|].
    rewrite andb_false_r. reflexivity.
  - intros o c now' Ho Hc Hlt Hle.
    rewrite (getRestaurantStatus_simple _ _ now' Ho Hc). unfold parseSimpleHours.
    rewrite ltb_negb_leb in *. rewrite Hle.
    destruct (String.leb (currentTimeString now') c); [discriminate|reflexivity].
  - intros hs' c now' Hfmt DQ. unfold getRestaurantStatus. rewrite Hfmt.
    unfold parseComplexHours. rewrite (dailyHours_day_qualified _ _ DQ).
    destruct (scanSchedules _ _ _) as [st|] eqn:E; [|reflexivity].
    apply scanSchedules_open in E as [cs ->]. discriminate.
Qed.

Lemma C10_witness :
  getRestaurantStatus "Daily: 11:00AM-9:00PM" "" (mkDate 2 22 0) =
  mkStatus false "Closed" "text-red-600" (Some "Opens at 11:00AM").
Proof.
  exact (proj1 (C10_daily_closed_announces_opening
                  "Daily: 11:00AM-9:00PM" "" (mkDate 2 22 0) "11:00AM" "9:00PM" []
                  eq_refl eq_refl) eq_refl).
Defined.

(** On the Simple path the current time can be past the closing time and
    [nextChange] present all the same: with "18:00" and "09:00" at noon the
    status is closed and announces the opening, so the Simple path does not
    omit [nextChange] at every time after closing. *)
Lemma C10_counterexample :
  detectHoursFormat "18:00" "09:00" = simple /\
  String.ltb "09:00" (currentTimeString (mkDate 2 12 0)) = true /\
  isOpen (getRestaurantStatus "18:00" "09:00" (mkDate 2 12 0)) = false /\
  nextChange (getRestaurantStatus "18:00" "09:00" (mkDate 2 12 0)) =
  Some "Opens at 6:00 PM" /\
  ~ (forall o c now,
        is_simple_time o -> is_simple_time c ->
        String.ltb c (currentTimeString now) = true ->
        nextChange (getRestaurantStatus o c now) = None).
Proof.
  do 4 (split; [vm_compute; reflexivity|]).
  intros H.
  specialize (H "18:00" "09:00" (mkDate 2 12 0)
                (simple_time_2 "1" "8" "0" "0" eq_refl eq_refl eq_refl eq_refl)
                (simple_time_2 "0" "9" "0" "0" eq_refl eq_refl eq_refl eq_refl)
                eq_refl).
  vm_compute in H. discriminate H.
Qed.

(* ================================================================= *)
(** ** Further properties

    Edge cases of the hours utilities, and the behaviour of the CSV reader
    that feeds them. *)


(* ----------------------------------------------------------------- *)
(** *** More on strings *)

Lemma prefix_iff needle s : prefix needle s = true <-> exists rest, s = needle ++ rest.
Proof.
  revert s. induction needle as [|a needle IH]; intros s.
  - split; [intros _; exists s; reflexivity|]. intros _. destruct s; reflexivity.
  - destruct s as [|b s]; simpl.
    + split; [discriminate|]. intros [rest H]. discriminate.
    + destruct (ascii_dec a b) as [->|N].
      * rewrite IH. split; intros [rest H]; exists rest; [rewrite H; reflexivity|].
        injection H as H. exact H.
      * split; [discriminate|]. intros [rest H]. injection H as H1 H2. congruence.
Qed.

Lemma includes_iff needle s :
  includes needle s = true <-> exists before_ after_, s = before_ ++ needle ++ after_.
Proof.
  induction s as [|a s IH].
  - cbn [includes]. rewrite orb_false_r, prefix_iff. split.
    + intros [rest H]. exists "", rest. exact H.
    + intros (l & r & H). destruct l; [exists r; exact H|discriminate].
  - cbn [includes]. rewrite orb_true_iff, prefix_iff, IH. split.
    + intros [[rest H]|(l & r & H)].
      * exists "", rest. exact H.
      * exists (String a l), r. rewrite H. reflexivity.
    + intros (l & r & H). destruct l as [|b l].
      * left. exists r. exact H.
      * right. injection H as _ H. exists l, r. exact H.
Qed.

(** A string that includes [a ++ b] includes [a] and includes [b]. *)
Lemma includes_app_r a b s : includes (a ++ b) s = true -> includes b s = true.
Proof.
  rewrite !includes_iff. intros (l & r & ->). exists (l ++ a), r.
  rewrite !append_assoc. reflexivity.
Qed.

Lemma includes_app_l a b s : includes (a ++ b) s = true -> includes a s = true.
Proof.
  rewrite !includes_iff. intros (l & r & ->). exists l, (b ++ r).
  rewrite !append_assoc. reflexivity.
Qed.

Lemma includes_trans a b s :
  includes a b = true -> includes b s = true -> includes a s = true.
Proof.
  rewrite !includes_iff. intros (l1 & r1 & ->) (l2 & r2 & ->).
  exists (l2 ++ l1), (r1 ++ r2). rewrite !append_assoc. reflexivity.
Qed.

Lemma includes_char_false sep s :
  includes (String sep "") s = false <->
  all_chars (fun a => negb (a =? sep)%char) s = true.
Proof.
  induction s as [|a s IH]; [split; reflexivity|].
  rewrite includes_char. cbn [all_chars].
  rewrite orb_false_iff, andb_true_iff, negb_true_iff, IH. reflexivity.
Qed.

Lemma all_chars_app p s1 s2 :
  all_chars p (s1 ++ s2) = all_chars p s1 && all_chars p s2.
Proof. induction s1 as [|a s1 IH]; simpl; [reflexivity|]. rewrite IH, andb_assoc. reflexivity. Qed.

Lemma all_chars_trimStart p s : all_chars p s = true -> all_chars p (trimStart s) = true.
Proof.
  induction s as [|a s IH]; simpl; [reflexivity|]. intros H.
  destruct (is_space a); [apply IH; apply andb_prop in H; tauto|exact H].
Qed.

Lemma all_chars_trimEnd p s : all_chars p s = true -> all_chars p (trimEnd s) = true.
Proof.
  induction s as [|a s IH]; simpl; [reflexivity|]. intros H.
  apply andb_prop in H as [Ha Hs]. specialize (IH Hs).
  destruct (trimEnd s); [destruct (is_space a); simpl; [reflexivity|rewrite Ha; reflexivity]|].
  simpl in *. rewrite Ha. exact IH.
Qed.

Lemma all_chars_trim p s : all_chars p s = true -> all_chars p (trim s) = true.
Proof. intros H. apply all_chars_trimEnd, all_chars_trimStart, H. Qed.

Lemma all_chars_split p sep s piece :
  all_chars p s = true -> In piece (split sep s) -> all_chars p piece = true.
Proof.
  revert piece. induction s as [|a s IH]; intros piece H; cbn [split].
  - intros [<-|[]]. reflexivity.
  - simpl in H. apply andb_prop in H as [Ha Hs].
    destruct (a =? sep)%char.
    + intros [<-|Hin]; [reflexivity|auto].
    + destruct (split sep s) as [|p0 ps] eqn:E; [intros [<-|[]]; simpl; rewrite Ha; reflexivity|].
      intros [<-|Hin].
      * simpl. rewrite Ha. apply IH; [exact Hs|left; reflexivity].
      * apply IH; [exact Hs|right; exact Hin].
Qed.

(** [trim] leaves a trimmed string alone. *)
Lemma trimEnd_first s a t : trimStart s = String a t -> is_space a = false.
Proof.
  induction s as [|b s IH]; simpl; [discriminate|].
  destruct (is_space b) eqn:E; [exact IH|]. intros [= <- _]. exact E.
Qed.

Lemma trimEnd_idem s : trimEnd (trimEnd s) = trimEnd s.
Proof.
  induction s as [|a s IH]; [reflexivity|].
  cbn [trimEnd]. destruct (trimEnd s) as [|b t] eqn:E.
  - destruct (is_space a) eqn:Sa; [reflexivity|]. cbn [trimEnd]. rewrite Sa. reflexivity.
  - cbn [trimEnd]. cbn [trimEnd] in IH. rewrite IH. reflexivity.
Qed.

Lemma trimStart_trimEnd s a t :
  s = String a t -> is_space a = false -> trimStart (trimEnd s) = trimEnd s.
Proof.
  intros -> Sa. cbn [trimEnd]. destruct (trimEnd t); [rewrite Sa|]; simpl; rewrite Sa; reflexivity.
Qed.

Lemma trim_idem s : trim (trim s) = trim s.
Proof.
  unfold trim. destruct (trimStart s) as [|a t] eqn:E; [reflexivity|].
  rewrite (trimStart_trimEnd _ a t eq_refl (trimEnd_first _ _ _ E)).
  apply trimEnd_idem.
Qed.


(* ----------------------------------------------------------------- *)
(** *** Descriptors that are never open *)

Lemma leb_cons a s b t :
  String.leb (String a s) (String b t) =
  match Ascii.compare a b with
  | Eq => String.leb s t
  | Lt => true
  | Gt => false
  end.
Proof. unfold String.leb. simpl. destruct (Ascii.compare a b); reflexivity. Qed.

Lemma leb_trans s1 s2 s3 :
  String.leb s1 s2 = true -> String.leb s2 s3 = true -> String.leb s1 s3 = true.
Proof.
  revert s2 s3. induction s1 as [|a s1 IH]; intros [|b s2] [|c s3]; try reflexivity;
    try discriminate.
  rewrite !leb_cons. unfold Ascii.compare.
  destruct (N.compare_spec (N_of_ascii a) (N_of_ascii b)) as [E1|L1|G1];
    destruct (N.compare_spec (N_of_ascii b) (N_of_ascii c)) as [E2|L2|G2];
    destruct (N.compare_spec (N_of_ascii a) (N_of_ascii c)) as [E3|L3|G3];
    try discriminate; try reflexivity; try lia.
  apply IH.
Qed.

(** X1: a Simple pair whose closing time is before its opening time, an
    overnight schedule, is open at no time. *)
Theorem X1_simple_hours_overnight_never_open opening closing now :
  is_simple_time opening -> is_simple_time closing ->
  String.ltb closing opening = true ->
  isOpen (getRestaurantStatus opening closing now) = false.
Proof.
  intros Ho Hc Hlt. rewrite getRestaurantStatus_simple by assumption.
  unfold parseSimpleHours. cbn [isOpen].
  destruct (String.leb opening (currentTimeString now)) eqn:E1; [|reflexivity].
  destruct (String.leb (currentTimeString now) closing) eqn:E2; [|reflexivity].
  rewrite ltb_negb_leb, (leb_trans _ _ _ E1 E2) in Hlt. discriminate.
Qed.

Lemma X1_witness : isOpen (getRestaurantStatus "18:00" "02:00" (mkDate 5 23 0)) = false.
Proof.
  exact (X1_simple_hours_overnight_never_open "18:00" "02:00" (mkDate 5 23 0)
           (simple_time_2 "1" "8" "0" "0" eq_refl eq_refl eq_refl eq_refl)
           (simple_time_2 "0" "2" "0" "0" eq_refl eq_refl eq_refl eq_refl)
           eq_refl).
Defined.

Lemma scanSchedules_all_none d t schedules :
  (forall c, In c schedules -> scanSchedule d t c = None) ->
  scanSchedules d t schedules = None.
Proof.
  induction schedules as [|c schedules IH]; intros H; [reflexivity|].
  cbn [scanSchedules]. rewrite (H c) by (left; reflexivity).
  apply IH. intros c' Hc'. apply H. right. exact Hc'.
Qed.

Lemma lower_char_colon a : (lower_char a =? ":")%char = (a =? ":")%char.
Proof. destruct a as [[] [] [] [] [] [] [] []]; vm_compute; reflexivity. Qed.

Lemma includes_colon_toLowerCase s : includes ":" (toLowerCase s) = includes ":" s.
Proof.
  induction s as [|a s IH]; [reflexivity|].
  cbn [toLowerCase]. rewrite !includes_char, lower_char_colon, IH. reflexivity.
Qed.

(** X2: a descriptor without a colon (empty, blank, "24 hours", "11AM-10PM"
    with no day in front) is Closed at every time, without [nextChange],
    whatever the closing string. *)
Theorem X2_no_colon_always_closed hours closing now :
  includes ":" hours = false ->
  getRestaurantStatus hours closing now = closedStatus.
Proof.
  intros Hc. unfold getRestaurantStatus.
  destruct (detectHoursFormat hours closing) eqn:D.
  - apply detect_simple_iff in D as [(h & m & -> & _) _].
    assert (includes ":" (h ++ ":" ++ m) = true) by (apply includes_iff; eauto).
    congruence.
  - unfold parseComplexHours, dailyHours.
    destruct (includes "daily:" (toLowerCase hours)) eqn:Dd.
    + apply (includes_app_r "daily" ":") in Dd.
      rewrite includes_colon_toLowerCase in Dd. congruence.
    + rewrite scanSchedules_all_none; [reflexivity|].
      intros c Hin. apply in_map_iff in Hin as (piece & <- & Hin).
      unfold scanSchedule. rewrite split_parts.
      replace (includes ":" (trim piece)) with false; [reflexivity|].
      symmetry. apply includes_char_false, all_chars_trim.
      eapply all_chars_split; [|exact Hin]. apply includes_char_false. exact Hc.
Qed.

Lemma X2_witness : getRestaurantStatus "Open 24 hours" "" (mkDate 1 12 0) = closedStatus.
Proof. exact (X2_no_colon_always_closed "Open 24 hours" "" (mkDate 1 12 0) eq_refl). Defined.

(* ----------------------------------------------------------------- *)
(** *** Strings of digits *)


Lemma digit_more_facts a :
  is_digit a = true ->
  (a =? ";")%char = false /\ (a =? "-")%char = false /\ (a =? ":")%char = false /\
  lower_char a = a /\
  (a =? "s")%char = false /\ (a =? "m")%char = false /\ (a =? "t")%char = false /\
  (a =? "w")%char = false /\ (a =? "f")%char = false.
Proof. by_cases_on_ascii a. Qed.

Lemma trim_no_space s :
  all_chars (fun a => negb (is_space a)) s = true -> trim s = s.
Proof.
  intros H. unfold trim.
  assert (Hs : trimStart s = s).
  { destruct s as [|a s]; [reflexivity|]. simpl in *.
    apply andb_prop in H as [Ha _]. apply negb_true_iff in Ha. rewrite Ha. reflexivity. }
  rewrite Hs. clear Hs. induction s as [|a s IH]; [reflexivity|].
  simpl in H. apply andb_prop in H as [Ha Hs]. apply negb_true_iff in Ha.
  cbn [trimEnd]. rewrite (IH Hs). destruct s; [rewrite Ha|]; reflexivity.
Qed.

Lemma all_chars_impl (p q : ascii -> bool) s :
  (forall a, p a = true -> q a = true) -> all_chars p s = true -> all_chars q s = true.
Proof.
  intros Hpq. induction s as [|a s IH]; [reflexivity|]. simpl. intros H.
  apply andb_prop in H as [Ha Hs]. rewrite (Hpq a Ha), (IH Hs). reflexivity.
Qed.

Lemma digits_no (sep : ascii) s :
  (forall a, is_digit a = true -> (a =? sep)%char = false) ->
  all_chars is_digit s = true -> includes (String sep "") s = false.
Proof.
  intros Hsep H. apply includes_char_false.
  eapply all_chars_impl; [|exact H]. intros a Ha. rewrite (Hsep a Ha). reflexivity.
Qed.

Lemma toLowerCase_digits s : all_chars is_digit s = true -> toLowerCase s = s.
Proof.
  induction s as [|a s IH]; [reflexivity|]. simpl. intros H.
  apply andb_prop in H as [Ha Hs]. rewrite (IH Hs).
  destruct (digit_more_facts a Ha) as (_ & _ & _ & -> & _). reflexivity.
Qed.

Lemma dayMap_digits s : s <> "" -> all_chars is_digit s = true -> dayMap s = VUndefined.
Proof.
  destruct s as [|a s]; [congruence|]. intros _ H. simpl in H.
  apply andb_prop in H as [Ha _].
  destruct (digit_more_facts a Ha) as (_ & _ & _ & _ & Hs & Hm & Ht & Hw & Hf).
  unfold dayMap. cbn [String.eqb]. rewrite Hs, Hm, Ht, Hw, Hf. reflexivity.
Qed.

Lemma before_after_app sep h m :
  includes (String sep "") h = false ->
  before sep (h ++ String sep m) = h /\ after sep (h ++ String sep m) = m.
Proof.
  induction h as [|a h IH]; intros H.
  - simpl. rewrite Ascii.eqb_refl. auto.
  - rewrite includes_char in H. apply orb_false_elim in H as [Ha H].
    cbn [append before after]. rewrite Ha. destruct (IH H) as [-> ->]. auto.
Qed.

(** A clause of digits, a colon and digits names no day. *)
Lemma scanSchedule_digits d t h m :
  h <> "" -> all_chars is_digit h = true -> all_chars is_digit m = true ->
  scanSchedule d t (h ++ ":" ++ m) = None.
Proof.
  intros Hne Dh Dm. unfold scanSchedule.
  assert (Hcolon : forall a, is_digit a = true -> (a =? ":")%char = false)
    by (intros a Ha; apply (digit_more_facts a Ha)).
  assert (Hdash : forall a, is_digit a = true -> (a =? "-")%char = false)
    by (intros a Ha; apply (digit_more_facts a Ha)).
  pose proof (digits_no ":" h Hcolon Dh) as Hh.
  destruct (before_after_app ":" h m Hh) as [Hb Ha].
  rewrite split_parts.
  replace (includes ":" (h ++ ":" ++ m)) with true by (symmetry; apply includes_iff; exists h, m; reflexivity).
  cbn [append] in *. rewrite Hb, Ha.
  rewrite (split_parts ":" m), (digits_no ":" m Hcolon Dm).
  assert (Hns : forall a, is_digit a = true -> negb (is_space a) = true)
    by (intros a Ha'; destruct (digit_facts a Ha') as [-> _]; reflexivity).
  rewrite (trim_no_space h) by (eapply all_chars_impl; [exact Hns|exact Dh]).
  rewrite toLowerCase_digits by exact Dh.
  unfold dayBounds. rewrite (digits_no "-" h Hdash Dh), dayMap_digits by assumption.
  cbn [not_null toNumber andb]. unfold isDayInRange, num_ge, num_le.
  destruct d; reflexivity.
Qed.


(* ----------------------------------------------------------------- *)
(** *** convertTo12Hour *)

Lemma digit_value_range a : is_digit a = true -> 0 <= digit_value a <= 9.
Proof.
  destruct a as [[] [] [] [] [] [] [] []]; intros H; try discriminate H;
    vm_compute; split; discriminate.
Qed.

Lemma digits_value_two a b : digits_value 0 (String a (String b "")) =
  if is_digit a then if is_digit b then 10 * digit_value a + digit_value b else digit_value a
  else 0.
Proof. cbn [digits_value]. destruct (is_digit a), (is_digit b); lia. Qed.

(** The rendering, with the hour and the minutes of the text named. *)
Lemma convertTo12Hour_digits h m :
  (String.length h = 1 \/ String.length h = 2)%nat ->
  all_chars is_digit h = true ->
  String.length m = 2%nat ->
  all_chars is_digit m = true ->
  convertTo12Hour (h ++ ":" ++ m) =
  toString (if digits_value 0 h mod 12 =? 0 then 12 else digits_value 0 h mod 12) ++
  ":" ++ m ++ " " ++ (if digits_value 0 h <? 12 then "AM" else "PM").
Proof.
  intros Hh Dh Hm Dm.
  destruct m as [|m1 [|m2 [|m3 m]]]; try discriminate Hm.
  destruct h as [|h1 [|h2 [|h3 h]]]; simpl in Hh; try lia.
  all: simpl in Dh, Dm;
    repeat match goal with H : _ && _ = true |- _ => apply andb_prop in H; destruct H end.
  all: token_facts; unfold is_char in *.
  all: unfold convertTo12Hour; cbn [append split hd].
  all: repeat match goal with
              | H : (?a =? ":")%char = false |- context [(?a =? ":")%char] => rewrite H
              end.
  all: rewrite ?Ascii.eqb_refl; cbn [split hd].
  all: repeat match goal with
              | H : (?a =? ":")%char = false |- context [(?a =? ":")%char] => rewrite H
              end.
  - rewrite parseInt_digit by assumption. cbn [digits_value].
    match goal with H : is_digit h1 = true |- _ => rewrite H; pose proof (digit_value_range _ H) end.
    replace (10 * 0 + digit_value h1) with (digit_value h1) by lia.
    rewrite Z.rem_mod_nonneg by lia. unfold num_ge, num_le.
    destruct (Z.leb_spec 12 (digit_value h1)), (Z.ltb_spec (digit_value h1) 12);
      try lia; reflexivity.
  - rewrite parseInt_digits by assumption. rewrite digits_value_two.
    repeat match goal with
           | H : is_digit ?a = true |- _ =>
               rewrite H; pose proof (digit_value_range _ H); clear H
           end.
    rewrite Z.rem_mod_nonneg by lia. unfold num_ge, num_le.
    destruct (Z.leb_spec 12 (10 * digit_value h1 + digit_value h2)),
      (Z.ltb_spec (10 * digit_value h1 + digit_value h2) 12); try lia; reflexivity.
Qed.

(** X3: on a Simple-format string the hour, the digits before the colon, is
    shown modulo 12, 12 standing for 0; the minutes are copied and the suffix
    is AM below 12, PM from 12 on (also for an hour above 23, which the
    format lets through). *)
Theorem X3_convertTo12Hour_simple s :
  is_simple_time s ->
  convertTo12Hour s =
  toString (if digits_value 0 (before ":" s) mod 12 =? 0 then 12
            else digits_value 0 (before ":" s) mod 12) ++
  ":" ++ after ":" s ++ " " ++
  (if digits_value 0 (before ":" s) <? 12 then "AM" else "PM").
Proof.
  intros (h & m & -> & Hh & Dh & Hm & Dm).
  assert (Hcolon : includes ":" h = false).
  { apply digits_no; [|exact Dh]. intros a Ha. apply (digit_more_facts a Ha). }
  destruct (before_after_app ":" h m Hcolon) as [Hb Ha].
  cbn [append] in *. rewrite Hb, Ha.
  apply (convertTo12Hour_digits h m); assumption.
Qed.

Lemma X3_witness : convertTo12Hour "14:30" = "2:30 PM" /\ convertTo12Hour "24:15" = "12:15 PM".
Proof.
  split.
  - exact (X3_convertTo12Hour_simple "14:30" (simple_time_2 "1" "4" "3" "0" eq_refl eq_refl eq_refl eq_refl)).
  - exact (X3_convertTo12Hour_simple "24:15" (simple_time_2 "2" "4" "1" "5" eq_refl eq_refl eq_refl eq_refl)).
Defined.


Lemma parse_rendered_1 hu m1 m2 l1 :
  is_digit hu = true -> is_digit m1 = true -> is_digit m2 = true ->
  is_letter_ci "A" l1 = true \/ is_letter_ci "P" l1 = true ->
  parseTimeToMinutes (String hu (String ":" (String m1 (String m2 (String " " (String l1 "M")))))) =
  Some (token_minutes (mkToken None hu true (Some (m1, m2)) " " l1 "M")).
Proof.
  intros Hu H1 H2 Hl.
  apply (parseTimeToMinutes_token (mkToken None hu true (Some (m1, m2)) " " l1 "M")).
  repeat split; auto.
Qed.

Lemma parse_rendered_2 ht hu m1 m2 l1 :
  is_digit ht = true -> is_digit hu = true -> is_digit m1 = true -> is_digit m2 = true ->
  is_letter_ci "A" l1 = true \/ is_letter_ci "P" l1 = true ->
  parseTimeToMinutes
    (String ht (String hu (String ":" (String m1 (String m2 (String " " (String l1 "M"))))))) =
  Some (token_minutes (mkToken (Some ht) hu true (Some (m1, m2)) " " l1 "M")).
Proof.
  intros Ht Hu H1 H2 Hl.
  apply (parseTimeToMinutes_token (mkToken (Some ht) hu true (Some (m1, m2)) " " l1 "M")).
  repeat split; auto.
Qed.

Lemma digits_value_nonneg s acc : 0 <= acc -> 0 <= digits_value acc s.
Proof.
  revert acc. induction s as [|a s IH]; intros acc H; cbn [digits_value]; [exact H|].
  destruct (is_digit a) eqn:D; [|exact H].
  apply IH. pose proof (digit_value_range _ D). lia.
Qed.

Lemma parse_rendered_time v m1 m2 :
  0 <= v <= 23 -> is_digit m1 = true -> is_digit m2 = true ->
  parseTimeToMinutes
    (toString (if v mod 12 =? 0 then 12 else v mod 12) ++
     ":" ++ String m1 (String m2 "") ++ " " ++ (if v <? 12 then "AM" else "PM")) =
  Some (60 * v + (10 * digit_value m1 + digit_value m2)).
Proof.
  intros [Hlo Hhi] D1 D2.
  destruct v as [|p|p]; [| |lia].
  2: do 5 (try destruct p as [p|p|]); try lia.
  all: match goal with
       | |- parseTimeToMinutes ?t = _ => let t' := eval cbv in t in change t with t'
       end.
  all: first [ rewrite parse_rendered_1 by (auto; vm_compute; auto)
             | rewrite parse_rendered_2 by (auto; vm_compute; auto) ].
  all: unfold token_minutes, token_hour, token_minute, token_period;
    cbn [hour_tens hour_units minute letter1].
  all: generalize (digit_value m1), (digit_value m2); intros x y.
  all: vm_compute; reflexivity.
Qed.

(** X4: round trip.  For an hour from 0 to 23 the 12-hour text that
    [convertTo12Hour] writes is read back by [parseTimeToMinutes] as the
    minutes since midnight of the 24-hour time. *)
Theorem X4_convertTo12Hour_parseTimeToMinutes h m :
  (String.length h = 1 \/ String.length h = 2)%nat ->
  all_chars is_digit h = true ->
  String.length m = 2%nat ->
  all_chars is_digit m = true ->
  digits_value 0 h <= 23 ->
  parseTimeToMinutes (convertTo12Hour (h ++ ":" ++ m)) =
  Some (60 * digits_value 0 h + digits_value 0 m).
Proof.
  intros Hh Dh Hm Dm H23. rewrite convertTo12Hour_digits by assumption.
  destruct m as [|m1 [|m2 [|m3 m]]]; try discriminate Hm.
  simpl in Dm. apply andb_prop in Dm as [D1 D2]. apply andb_prop in D2 as [D2 _].
  rewrite digits_value_two, D1, D2.
  apply parse_rendered_time; [|assumption|assumption].
  split; [apply digits_value_nonneg; lia|exact H23].
Qed.

Lemma X4_witness : parseTimeToMinutes (convertTo12Hour "14:30") = Some 870.
Proof.
  refine (X4_convertTo12Hour_parseTimeToMinutes "14" "30" (or_intror eq_refl) eq_refl eq_refl eq_refl _).
  vm_compute. discriminate.
Defined.

(* ----------------------------------------------------------------- *)
(** *** An opening time that is not what it seems *)

(** With a closing string that is not in the HH:MM form the pair is
    Complex, whatever the opening string. *)
Lemma getRestaurantStatus_not_simple opening closing now :
  ~ is_simple_time closing ->
  getRestaurantStatus opening closing now = parseComplexHours opening now.
Proof.
  intros Hc. unfold getRestaurantStatus.
  destruct (detectHoursFormat opening closing) eqn:D; [|reflexivity].
  apply detect_simple_iff in D as [_ D]. contradiction.
Qed.

(** The Complex evaluation of an HH:MM text finds no day in it. *)
Lemma parseComplexHours_simple_time opening now :
  is_simple_time opening -> parseComplexHours opening now = closedStatus.
Proof.
  intros (h & m & -> & Hh & Dh & Hm & Dm).
  unfold parseComplexHours, dailyHours.
  rewrite includes_short
    by (rewrite toLowerCase_length, !length_append, Hm; simpl; lia).
  assert (Hsemi : forall a, is_digit a = true \/ a = ":"%char -> (a =? ";")%char = false).
  { intros a [Ha| ->]; [apply (digit_more_facts a Ha)|reflexivity]. }
  assert (Hall : forall (p : ascii -> bool),
             (forall a, is_digit a = true \/ a = ":"%char -> p a = true) ->
             all_chars p (h ++ ":" ++ m) = true).
  { intros p Hp. rewrite !all_chars_app. cbn [all_chars].
    rewrite (all_chars_impl is_digit p h), (all_chars_impl is_digit p m), Hp; auto. }
  rewrite split_parts.
  replace (includes ";" (h ++ ":" ++ m)) with false.
  2:{ symmetry. apply includes_char_false, Hall. intros a Ha. rewrite (Hsemi a Ha). reflexivity. }
  cbn [map scanSchedules].
  rewrite trim_no_space.
  2:{ apply Hall. intros a [Ha| ->]; [destruct (digit_facts a Ha) as [-> _]|]; reflexivity. }
  rewrite scanSchedule_digits; [reflexivity| |exact Dh|exact Dm].
  destruct h; [simpl in Hh; lia|discriminate].
Qed.

(** X5: an opening time in the HH:MM form with a closing string that is not
    in that form (empty, say) is evaluated as a Complex descriptor, in which
    the hour stands where a day is expected: the status is Closed at every
    time. *)
Theorem X5_simple_opening_without_closing opening closing now :
  is_simple_time opening -> ~ is_simple_time closing ->
  getRestaurantStatus opening closing now = closedStatus.
Proof.
  intros Ho Hc. rewrite getRestaurantStatus_not_simple by exact Hc.
  apply parseComplexHours_simple_time, Ho.
Qed.

Lemma X5_witness : getRestaurantStatus "09:00" "" (mkDate 1 10 0) = closedStatus.
Proof.
  refine (X5_simple_opening_without_closing "09:00" "" (mkDate 1 10 0)
            (simple_time_2 "0" "9" "0" "0" eq_refl eq_refl eq_refl eq_refl) _).
  intros H. apply test_simple_iff in H. discriminate H.
Defined.


Lemma digit_cases a :
  is_digit a = true -> In a ["0"; "1"; "2"; "3"; "4"; "5"; "6"; "7"; "8"; "9"]%char.
Proof.
  destruct a as [[] [] [] [] [] [] [] []]; vm_compute; intros H; try discriminate H; auto 12.
Qed.

Lemma digit_from_two a :
  is_digit a = true -> 2 <= digit_value a ->
  forall c, In c ["0"; "1"; "2"]%char -> Ascii.compare a c <> Lt /\
            (Ascii.compare a c = Eq -> c = "2"%char /\ a = "2"%char).
Proof.
  intros H H2 c Hc. apply digit_cases in H. cbn [In] in H, Hc.
  repeat (destruct H as [<-|H]; [|]); try destruct H;
    try (vm_compute in H2; exfalso; apply H2; reflexivity);
    repeat (destruct Hc as [<-|Hc]; [|]); try destruct Hc;
    vm_compute; split; try discriminate; auto.
Qed.

(** X6: an opening time with a one-digit hour from 2 to 9, such as "9:00",
    passes for the Simple format but is compared as a string with the
    zero-padded current time: the status is open at no time of the day,
    whatever the closing string. *)
Theorem X6_one_digit_opening_never_open d m closing now :
  is_digit d = true -> 2 <= digit_value d ->
  String.length m = 2%nat -> all_chars is_digit m = true ->
  valid_date now ->
  isOpen (getRestaurantStatus (String d (String ":" m)) closing now) = false.
Proof.
  intros Hd H2 Hm Dm Hnow.
  assert (Ho : is_simple_time (String d (String ":" m))).
  { exists (String d ""), m. simpl. rewrite Hd. auto. }
  assert (Hdec : is_simple_time closing \/ ~ is_simple_time closing).
  { rewrite <- test_simple_iff. destruct (test simpleTimePattern closing); auto. }
  destruct Hdec as [Hc|Hc];
    [|rewrite getRestaurantStatus_not_simple, parseComplexHours_simple_time by assumption;
      reflexivity].
  rewrite getRestaurantStatus_simple by assumption.
  unfold parseSimpleHours. cbn [isOpen].
  rewrite (currentTimeString_zero_padded now Hnow).
  destruct Hnow as (_ & Hh & _).
  assert (Htens : In (digit_char (getHours now / 10)) ["0"; "1"; "2"]%char).
  { assert (E : getHours now / 10 = 0 \/ getHours now / 10 = 1 \/ getHours now / 10 = 2).
    { pose proof (Z.div_pos (getHours now) 10 ltac:(lia) ltac:(lia)).
      pose proof (Z.div_lt_upper_bound (getHours now) 10 3 ltac:(lia) ltac:(lia)). lia. }
    destruct E as [->|[->| ->]]; simpl; auto. }
  rewrite leb_cons.
  destruct (digit_from_two d Hd H2 _ Htens) as [Hlt Heq].
  destruct (Ascii.compare d (digit_char (getHours now / 10))) eqn:E;
    [|congruence|reflexivity].
  rewrite leb_cons.
  assert (Hu : is_digit (digit_char (getHours now mod 10)) = true).
  { pose proof (Z.mod_pos_bound (getHours now) 10 ltac:(lia)) as Hb.
    assert (Hcases : In (getHours now mod 10) [0; 1; 2; 3; 4; 5; 6; 7; 8; 9]) by (simpl; lia).
    simpl in Hcases.
    repeat (destruct Hcases as [<-|Hcases]; [reflexivity|]). destruct Hcases. }
  replace (Ascii.compare ":" (digit_char (getHours now mod 10))) with Gt; [reflexivity|].
  symmetry. apply digit_cases in Hu. cbn [In] in Hu.
  repeat (destruct Hu as [<-|Hu]; [reflexivity|]). destruct Hu.
Qed.

Lemma X6_witness : isOpen (getRestaurantStatus "9:00" "17:00" (mkDate 1 10 0)) = false.
Proof.
  refine (X6_one_digit_opening_never_open "9" "00" "17:00" (mkDate 1 10 0) eq_refl _ eq_refl eq_refl _).
  - vm_compute. discriminate.
  - unfold valid_date. simpl. lia.
Defined.

(* ----------------------------------------------------------------- *)
(** *** Intervals that close before they open *)

(** X7: an interval whose close token is earlier than its open token, as in
    "6PM-2AM", contains no time: a Daily descriptor with such tokens is
    Closed at every time and always announces its opening, and a
    day-qualified descriptor all of whose intervals are of that kind is
    Closed at every time. *)
Theorem X7_interval_closing_before_opening :
  (forall t iv openTime closeTime,
      parseTimeToMinutes (fst iv) = Some openTime ->
      parseTimeToMinutes (snd iv) = Some closeTime ->
      closeTime < openTime -> covers t iv = false) /\
  (forall hours closing now openStr closeStr more openTime closeTime,
      includes "daily:" (toLowerCase hours) = true ->
      matchAll timePattern hours = openStr :: closeStr :: more ->
      parseTimeToMinutes openStr = Some openTime ->
      parseTimeToMinutes closeStr = Some closeTime ->
      closeTime < openTime ->
      getRestaurantStatus hours closing now =
      mkStatus false "Closed" "text-red-600" (Some ("Opens at " ++ openStr))) /\
  (forall hours now,
      day_qualified hours ->
      (forall clause iv,
          In clause (clauses hours) -> In iv (intervals clause) ->
          exists openTime closeTime,
            parseTimeToMinutes (fst iv) = Some openTime /\
            parseTimeToMinutes (snd iv) = Some closeTime /\
            closeTime < openTime) ->
      parseComplexHours hours now = closedStatus).
Proof.
  assert (Hcov : forall t iv openTime closeTime,
             parseTimeToMinutes (fst iv) = Some openTime ->
             parseTimeToMinutes (snd iv) = Some closeTime ->
             closeTime < openTime -> covers t iv = false).
  { intros t iv o c Ho Hc Hlt. unfold covers. rewrite Ho, Hc. cbn [num_le].
    destruct (Z.leb_spec o t), (Z.leb_spec t c); try reflexivity; lia. }
  split; [exact Hcov|split].
  - intros hours closing now openStr closeStr more o c Hd Hm Ho Hc Hlt.
    rewrite (getRestaurantStatus_daily _ _ _ Hd). unfold parseComplexHours.
    rewrite (dailyHours_tokens _ _ _ _ _ Hd Hm).
    rewrite (Hcov _ (openStr, closeStr) o c Ho Hc Hlt). reflexivity.
  - intros hours now DQ Hall. unfold parseComplexHours.
    rewrite (dailyHours_day_qualified _ _ DQ).
    fold (clauses hours).
    rewrite (proj2 (scanSchedules_none (getDay now) _ (clauses hours))); [reflexivity|].
    intros clause Hin. right. intros iv Hiv.
    destruct (Hall clause iv Hin Hiv) as (o & c & Ho & Hc & Hlt).
    exact (Hcov _ iv o c Ho Hc Hlt).
Qed.

Lemma X7_witness :
  getRestaurantStatus "Daily: 6:00PM-2:00AM" "" (mkDate 5 23 0) =
  mkStatus false "Closed" "text-red-600" (Some "Opens at 6:00PM").
Proof.
  exact (proj1 (proj2 X7_interval_closing_before_opening)
           "Daily: 6:00PM-2:00AM" "" (mkDate 5 23 0) "6:00PM" "2:00AM" [] 1080 120
           eq_refl eq_refl eq_refl eq_refl eq_refl).
Defined.

(* ----------------------------------------------------------------- *)
(** *** Times without AM or PM *)

Lemma toLowerCase_app a b : toLowerCase (a ++ b) = toLowerCase a ++ toLowerCase b.
Proof. induction a as [|c a IH]; simpl; [reflexivity|]. rewrite IH. reflexivity. Qed.

(** What a part of a string includes in lower case, the string includes. *)
Lemma includes_lower_part x part s :
  includes part s = true ->
  includes x (toLowerCase s) = false -> includes x (toLowerCase part) = false.
Proof.
  intros Hpart Hs. destruct (includes x (toLowerCase part)) eqn:E; [|reflexivity].
  rewrite <- Hs. symmetry. apply includes_trans with (toLowerCase part); [exact E|].
  apply includes_iff in Hpart as (l & r & ->). rewrite !toLowerCase_app.
  apply includes_iff. eauto.
Qed.

Lemma includes_tail x a s : includes x s = true -> includes x (String a s) = true.
Proof. intros H. cbn [includes]. rewrite H. apply orb_true_r. Qed.

Lemma includes_pre x a b : includes x b = true -> includes x (a ++ b) = true.
Proof. intros H. induction a as [|c a IH]; [exact H|apply includes_tail, IH]. Qed.

Lemma includes_prepost x a b : includes x a = true -> includes x (a ++ b) = true.
Proof.
  rewrite !includes_iff. intros (l & r & ->). exists l, (r ++ b).
  rewrite !append_assoc. reflexivity.
Qed.

Lemma before_prefix sep s : exists rest, s = before sep s ++ rest.
Proof.
  induction s as [|a s [rest IH]]; [exists ""; reflexivity|]. cbn [before].
  destruct (a =? sep)%char; [exists (String a s); reflexivity|].
  exists rest. cbn [append]. rewrite <- IH. reflexivity.
Qed.

Lemma includes_after sep s : includes (after sep s) s = true.
Proof.
  induction s as [|a s IH]; [reflexivity|]. cbn [after].
  destruct (a =? sep)%char; [|apply includes_tail, IH].
  apply includes_tail, includes_iff. exists "", "". rewrite append_nil_r. reflexivity.
Qed.

Lemma includes_split sep s piece : In piece (split sep s) -> includes piece s = true.
Proof.
  revert piece. induction s as [|a s IH]; intros piece; cbn [split].
  - intros [<-|[]]. reflexivity.
  - destruct (a =? sep)%char.
    + intros [<-|Hin]; [destruct s; reflexivity|apply includes_tail, IH, Hin].
    + pose proof (split_before_after sep s) as E.
      destruct (split sep s) as [|p0 ps]; [discriminate E|]. injection E as -> _.
      intros [<-|Hin]; [|apply includes_tail, IH; right; exact Hin].
      destruct (before_prefix sep s) as [rest Hrest].
      apply includes_iff. exists "", rest. cbn [append]. rewrite <- Hrest. reflexivity.
Qed.

Lemma trimStart_suffix s : exists l, s = l ++ trimStart s.
Proof.
  induction s as [|a s [l IH]]; [exists ""; reflexivity|]. cbn [trimStart].
  destruct (is_space a); [|exists ""; reflexivity].
  exists (String a l). cbn [append]. rewrite <- IH. reflexivity.
Qed.

Lemma trimEnd_prefix s : exists r, s = trimEnd s ++ r.
Proof.
  induction s as [|a s [r IH]]; [exists ""; reflexivity|]. cbn [trimEnd].
  destruct (trimEnd s) as [|b t].
  - destruct (is_space a); [exists (String a s); reflexivity|].
    exists r. cbn [append] in *. rewrite <- IH. reflexivity.
  - exists r. cbn [append] in *. rewrite <- IH. reflexivity.
Qed.

Lemma includes_trim s : includes (trim s) s = true.
Proof.
  unfold trim. destruct (trimStart_suffix s) as [l Hl].
  destruct (trimEnd_prefix (trimStart s)) as [r Hr].
  apply includes_iff. exists l, r. rewrite <- Hr. exact Hl.
Qed.

Lemma letterA_lower a : is_letter_ci "A" a = true -> lower_char a = "a"%char.
Proof. by_cases_on_ascii a. Qed.

Lemma letterP_lower a : is_letter_ci "P" a = true -> lower_char a = "p"%char.
Proof. by_cases_on_ascii a. Qed.

Lemma letterM_lower a : is_letter_ci "M" a = true -> lower_char a = "m"%char.
Proof. by_cases_on_ascii a. Qed.

(** A time token ends in AM or PM, in either case of the letters. *)
Lemma match_at_needs_period pos s :
  includes "am" (toLowerCase s) = false ->
  includes "pm" (toLowerCase s) = false ->
  match_at timePattern pos s = None.
Proof.
  intros Ham Hpm. destruct (match_at timePattern pos s) as [m|] eqn:E; [|reflexivity].
  apply match_at_sound in E as (tk & rest & Hwf & -> & _).
  destruct Hwf as (_ & _ & _ & _ & HAP & HM).
  assert (Hin : forall x,
             toLowerCase (String (letter1 tk) (String (letter2 tk) "")) = x ->
             includes x (toLowerCase (token_text tk ++ rest)) = true).
  { intros x <-. rewrite toLowerCase_app. apply includes_prepost.
    unfold token_text. rewrite !toLowerCase_app.
    do 5 apply includes_pre. apply includes_iff. exists "", "".
    rewrite append_nil_r. reflexivity. }
  cbn [toLowerCase] in Hin. rewrite (letterM_lower _ HM) in Hin.
  destruct HAP as [HA|HP].
  - rewrite (letterA_lower _ HA) in Hin. rewrite (Hin "am" eq_refl) in Ham. discriminate.
  - rewrite (letterP_lower _ HP) in Hin. rewrite (Hin "pm" eq_refl) in Hpm. discriminate.
Qed.

Lemma includes_lower_tail x a s :
  includes x (toLowerCase (String a s)) = false -> includes x (toLowerCase s) = false.
Proof. cbn [toLowerCase includes]. intros H. apply orb_false_elim in H as [_ H]. exact H. Qed.

Lemma matchAll_needs_period s :
  includes "am" (toLowerCase s) = false ->
  includes "pm" (toLowerCase s) = false ->
  matchAll timePattern s = [].
Proof.
  unfold matchAll. generalize 0%nat at 1 as pos. generalize 0%nat as skip.
  induction s as [|a s IH]; intros skip pos Ham Hpm.
  - destruct skip; [|reflexivity]. cbn [matchAll_from].
    rewrite match_at_needs_period by assumption. reflexivity.
  - pose proof (includes_lower_tail _ _ _ Ham) as Ham'.
    pose proof (includes_lower_tail _ _ _ Hpm) as Hpm'.
    destruct skip; cbn [matchAll_from]; [|apply IH; assumption].
    rewrite match_at_needs_period by assumption. apply IH; assumption.
Qed.

Lemma scanTimeRanges_needs_period t pieces :
  (forall piece, In piece pieces -> matchAll timePattern piece = []) ->
  scanTimeRanges t pieces = None.
Proof.
  induction pieces as [|piece pieces IH]; intros H; [reflexivity|].
  cbn [scanTimeRanges]. rewrite (H piece) by (left; reflexivity).
  apply IH. intros p Hp. apply H. right. exact Hp.
Qed.

(** X8: the Complex evaluation only reads times that end in AM or PM: a
    descriptor in which neither pair of letters occurs, in any case of the
    letters, such as "Mon-Fri: 09:00-17:00" with its 24-hour times, is Closed
    at every time. *)
Theorem X8_complex_hours_need_am_pm hours now :
  includes "am" (toLowerCase hours) = false ->
  includes "pm" (toLowerCase hours) = false ->
  parseComplexHours hours now = closedStatus.
Proof.
  intros Ham Hpm. unfold parseComplexHours, dailyHours.
  rewrite (matchAll_needs_period hours Ham Hpm).
  replace (if includes "daily:" (toLowerCase hours) then None else None)
    with (@None OpenStatus)
    by (destruct (includes "daily:" (toLowerCase hours)); reflexivity).
  rewrite scanSchedules_all_none; [reflexivity|].
  intros clause Hin. apply in_map_iff in Hin as (piece & <- & Hin).
  rewrite scanSchedule_clause. destruct (dayMatches _ _); [|reflexivity].
  apply scanTimeRanges_needs_period. intros p Hp.
  apply in_map_iff in Hp as (q & <- & Hq).
  assert (Hpart : includes (trim q) hours = true).
  { apply includes_trans with q; [apply includes_trim|].
    apply includes_trans with (timePartOf (trim piece)); [apply (includes_split _ _ _ Hq)|].
    unfold timePartOf.
    apply includes_trans with (after ":" (trim piece)); [apply includes_trim|].
    apply includes_trans with (trim piece); [apply includes_after|].
    apply includes_trans with piece; [apply includes_trim|].
    apply (includes_split _ _ _ Hin). }
  apply matchAll_needs_period; eapply includes_lower_part; eauto.
Qed.

Lemma X8_witness : parseComplexHours "Mon-Fri: 09:00-17:00" (mkDate 1 10 0) = closedStatus.
Proof. exact (X8_complex_hours_need_am_pm "Mon-Fri: 09:00-17:00" (mkDate 1 10 0) eq_refl eq_refl). Defined.


(* ----------------------------------------------------------------- *)
(** *** convertPriceRange *)

Import Price.

Lemma Qlt_bool_half s n :
  Qlt_bool (inject_Z s / 2) (inject_Z n) = (s <? 2 * n).
Proof.
  unfold Qlt_bool, Qle_bool, Qdiv, Qmult, Qinv, inject_Z.
  cbn -[Z.mul Z.leb Z.ltb].
  destruct (Z.leb_spec (n * 2) (s * 1 * 1)), (Z.ltb_spec s (2 * n)); try reflexivity; lia.
Qed.

Lemma Qle_bool_half s n :
  Qle_bool (inject_Z s / 2) (inject_Z n) = (s <=? 2 * n).
Proof.
  unfold Qle_bool, Qdiv, Qmult, Qinv, inject_Z.
  cbn -[Z.mul Z.leb Z.ltb].
  destruct (Z.leb_spec (s * 1 * 1) (n * 2)), (Z.leb_spec s (2 * n)); try reflexivity; lia.
Qed.

(** The symbol in terms of the sum of the two bounds. *)
Lemma price_symbol minPrice maxPrice :
  (let avgPrice := (inject_Z (minPrice + maxPrice) / 2)%Q in
   if Qlt_bool avgPrice 10 then "$"
   else if Qle_bool avgPrice 20 then "$$"
   else if Qle_bool avgPrice 30 then "$$$"
   else "$$$$") =
  (if minPrice + maxPrice <? 20 then "$"
   else if minPrice + maxPrice <=? 40 then "$$"
   else if minPrice + maxPrice <=? 60 then "$$$"
   else "$$$$").
Proof.
  cbn zeta.
  change 10%Q with (inject_Z 10). change 20%Q with (inject_Z 20). change 30%Q with (inject_Z 30).
  rewrite Qlt_bool_half, !Qle_bool_half. reflexivity.
Qed.

Lemma parseInt_all_digits s :
  s <> "" -> all_chars is_digit s = true -> parseInt s = Some (digits_value 0 s).
Proof.
  destruct s as [|a s]; [congruence|]. intros _ H. simpl in H.
  apply andb_prop in H as [Ha _].
  destruct (digit_facts a Ha) as (Hs & _ & Hm & Hp & _).
  unfold parseInt. cbn [trimStart]. rewrite Hs, Hm, Hp, Ha. reflexivity.
Qed.

Lemma exec_price_skip before_ s pos :
  includes "$" before_ = false ->
  exec_from pricePattern pos (before_ ++ s) =
  exec_from pricePattern (pos + String.length before_)%nat s.
Proof.
  revert pos. induction before_ as [|a before_ IH]; intros pos H.
  - rewrite Nat.add_0_r. reflexivity.
  - rewrite includes_char in H. apply orb_false_elim in H as [Ha H].
    cbn [append exec_from]. unfold match_at at 1, pricePattern at 1. cbn [run].
    unfold is_char. rewrite Ha, IH by exact H. f_equal. simpl. lia.
Qed.

Lemma match_at_price a b rest pos :
  a <> "" -> b <> "" ->
  all_chars is_digit a = true -> all_chars is_digit b = true ->
  match rest with String c _ => is_digit c = false | EmptyString => True end ->
  match_at pricePattern pos ("$" ++ a ++ "-" ++ b ++ rest) =
  Some (mkMatch ("$" ++ a ++ "-" ++ b) [(2%nat, b); (1%nat, a)]).
Proof.
  destruct a as [|a1 a]; [congruence|]. destruct b as [|b1 b]; [congruence|].
  intros _ _ Ha Hb Hrest. simpl in Ha, Hb.
  apply andb_prop in Ha as [Ha1 Ha]. apply andb_prop in Hb as [Hb1 Hb].
  unfold match_at, pricePattern, plus. cbn [run append].
  eval_class (is_char "$") "$"%char. rewrite Ha1.
  erewrite star_greedy; [reflexivity|exact Ha|reflexivity|].
  cbn [run append]. eval_class (is_char "-") "-"%char. rewrite Hb1.
  erewrite star_greedy; [reflexivity|exact Hb|exact Hrest|].
  cbn [append]. rewrite !append_assoc. reflexivity.
Qed.

(** X9: a price text that holds, after text without a dollar sign, a dollar
    sign, digits, a hyphen and digits gets its symbol from the sum of the two
    bounds: "$" below 20 (average below 10), "$$" up to 40, "$$$" up to 60,
    "$$$$" above; the bounds of each bucket but the first are included. *)
Theorem X9_convertPriceRange_buckets before_ a b rest :
  includes "$" before_ = false ->
  a <> "" -> b <> "" ->
  all_chars is_digit a = true -> all_chars is_digit b = true ->
  match rest with String c _ => is_digit c = false | EmptyString => True end ->
  convertPriceRange (before_ ++ "$" ++ a ++ "-" ++ b ++ rest) =
  (if digits_value 0 a + digits_value 0 b <? 20 then "$"
   else if digits_value 0 a + digits_value 0 b <=? 40 then "$$"
   else if digits_value 0 a + digits_value 0 b <=? 60 then "$$$"
   else "$$$$").
Proof.
  intros Hpre Ha0 Hb0 Ha Hb Hrest. unfold convertPriceRange, exec.
  rewrite exec_price_skip by exact Hpre.
  rewrite (exec_from_hit _ _ _ _ (match_at_price a b rest _ Ha0 Hb0 Ha Hb Hrest)).
  unfold group. cbn [m_groups capture Nat.eqb].
  rewrite !parseInt_all_digits by assumption.
  apply price_symbol.
Qed.

Lemma X9_witness : convertPriceRange "around $15-25 a person" = "$$".
Proof.
  exact (X9_convertPriceRange_buckets "around " "15" "25" " a person"
           eq_refl ltac:(discriminate) ltac:(discriminate) eq_refl eq_refl eq_refl).
Defined.

(** X10: a text without a dollar sign gets the default symbol "$$". *)
Theorem X10_convertPriceRange_default s :
  includes "$" s = false -> convertPriceRange s = "$$".
Proof.
  intros H. unfold convertPriceRange, exec.
  rewrite <- (append_nil_r s), exec_price_skip by exact H. reflexivity.
Qed.

Lemma X10_witness : convertPriceRange "Moderate" = "$$".
Proof. exact (X10_convertPriceRange_default "Moderate" eq_refl). Defined.

Lemma convertPriceRange_in_symbols s :
  In (convertPriceRange s) ["$"; "$$"; "$$$"; "$$$$"].
Proof.
  unfold convertPriceRange. destruct (exec pricePattern s) as [m|]; [|simpl; auto].
  destruct (parseInt (group 1 m)) as [lo|]; [|simpl; auto 6].
  destruct (parseInt (group 2 m)) as [hi|]; [|simpl; auto 6].
  cbn zeta. destruct (Qlt_bool _ _); [simpl; auto|].
  destruct (Qle_bool _ 20); [simpl; auto|].
  destruct (Qle_bool _ 30); simpl; auto 6.
Qed.

(** X11: whatever the cell holds, the result is one of the four symbols, and
    the colour the card gives it is one of the four colours of the switch,
    never the grey of its default branch. *)
Theorem X11_convertPriceRange_symbols s :
  In (convertPriceRange s) ["$"; "$$"; "$$$"; "$$$$"] /\
  In (getPriceColor (convertPriceRange s))
     ["text-green-600"; "text-yellow-600"; "text-orange-600"; "text-red-600"].
Proof.
  pose proof (convertPriceRange_in_symbols s) as H. split; [exact H|].
  cbn [In] in H. destruct H as [<-|[<-|[<-|[<-|[]]]]]; simpl; auto.
Qed.


(* ----------------------------------------------------------------- *)
(** *** mockGeocodeHouston *)

Import Geocode.

(** The entries in the order the loop meets them: the ten zip codes first,
    by ascending value, then the street keys as written. *)
Lemma locationMap_entries :
  objectEntries locationMap =
  [ ("77002", mkCoords 29.7520 (-95.3698));
    ("77006", mkCoords 29.7485 (-95.3950));
    ("77027", mkCoords 29.7402 (-95.4350));
    ("77036", mkCoords 29.7058 (-95.4774));
    ("77057", mkCoords 29.7350 (-95.4951));
    ("77063", mkCoords 29.7380 (-95.5600));
    ("77074", mkCoords 29.6850 (-95.5300));
    ("77081", mkCoords 29.7010 (-95.5200));
    ("77098", mkCoords 29.7431 (-95.4220));
    ("77099", mkCoords 29.7019 (-95.5683));
    ("6815 hillcroft", mkCoords 29.6995 (-95.4950));
    ("7300 hillcroft", mkCoords 29.6860 (-95.4948));
    ("5827 hillcroft", mkCoords 29.7095 (-95.4952));
    ("3601 hillcroft", mkCoords 29.7350 (-95.4951));
    ("hillcroft", mkCoords 29.7223 (-95.4954));
    ("12427 bissonnet", mkCoords 29.7019 (-95.5683));
    ("bissonnet", mkCoords 29.7019 (-95.5683));
    ("2800 kirby", mkCoords 29.7346 (-95.4189));
    ("3910 kirby", mkCoords 29.7300 (-95.4185));
    ("kirby", mkCoords 29.7346 (-95.4189));
    ("westheimer", mkCoords 29.7390 (-95.4563));
    ("516 westheimer", mkCoords 29.7485 (-95.3950));
    ("1834 westheimer", mkCoords 29.7431 (-95.4220));
    ("3334 westheimer", mkCoords 29.7402 (-95.4350));
    ("8888 westheimer", mkCoords 29.7380 (-95.5600));
    ("richmond", mkCoords 29.7355 (-95.5021));
    ("4410 richmond", mkCoords 29.7355 (-95.4621));
    ("fannin", mkCoords 29.7520 (-95.3698));
    ("1201 fannin", mkCoords 29.7520 (-95.3698));
    ("bellaire", mkCoords 29.7058 (-95.4774));
    ("9889 bellaire", mkCoords 29.7058 (-95.4774)) ]%Q.
Proof. vm_compute. reflexivity. Qed.

Lemma firstIncluded_first s pre key coords post :
  (forall k c, In (k, c) pre -> includes k s = false) ->
  includes key s = true ->
  firstIncluded s (pre ++ (key, coords) :: post) = Some (key, coords).
Proof.
  induction pre as [|[k c] pre IH]; intros Hpre Hkey; cbn [app firstIncluded].
  - rewrite Hkey. reflexivity.
  - rewrite (Hpre k c) by (left; reflexivity). apply IH; [|exact Hkey].
    intros k' c' H. apply (Hpre k' c'). right. exact H.
Qed.

Lemma firstIncluded_some s entries key coords :
  firstIncluded s entries = Some (key, coords) ->
  exists pre post,
    entries = (pre ++ (key, coords) :: post)%list /\
    includes key s = true /\
    forall k c, In (k, c) pre -> includes k s = false.
Proof.
  induction entries as [|[k c] entries IH]; cbn [firstIncluded]; [discriminate|].
  destruct (includes k s) eqn:E.
  - intros [= -> ->]. exists [], entries. repeat split; [exact E|intros ? ? []].
  - intros H. destruct (IH H) as (pre & post & -> & Hk & Hpre).
    exists ((k, c) :: pre), post. repeat split; [exact Hk|].
    intros k' c' [[= <- <-]|Hin]; [exact E|eauto].
Qed.

Lemma firstIncluded_none s entries :
  firstIncluded s entries = None <-> forall k c, In (k, c) entries -> includes k s = false.
Proof.
  induction entries as [|[k c] entries IH]; cbn [firstIncluded].
  - split; [intros _ ? ? []|reflexivity].
  - destruct (includes k s) eqn:E.
    + split; [discriminate|]. intros H. rewrite (H k c) in E by (left; reflexivity). discriminate.
    + rewrite IH. split.
      * intros H k' c' [[= <- <-]|Hin]; [exact E|eauto].
      * intros H k' c' Hin. apply (H k' c'). right. exact Hin.
Qed.

Lemma objectEntries_locationMap_In e : In e (objectEntries locationMap) <-> In e locationMap.
Proof.
  rewrite locationMap_entries. unfold locationMap. cbn [In]. tauto.
Qed.

Ltac in_locationMap := unfold locationMap; repeat (first [left; reflexivity | right]).

(** X12: a zip code of the table in the address decides alone.  The entries
    are met zip codes first, by ascending value, so the address gets the
    coordinates of the smallest zip code of the table it contains, whatever
    street it names. *)
Theorem X12_mockGeocodeHouston_zip_first address zip coords i :
  In (zip, coords) locationMap ->
  arrayIndex zip = Some i ->
  includes zip (toLowerCase address) = true ->
  (forall zip' coords' j,
      In (zip', coords') locationMap -> arrayIndex zip' = Some j -> j < i ->
      includes zip' (toLowerCase address) = false) ->
  mockGeocodeHouston address = coords.
Proof.
  intros Hin Hidx Hinc Hsmaller. unfold mockGeocodeHouston.
  rewrite locationMap_entries. unfold locationMap in Hin. cbn [In] in Hin.
  repeat (destruct Hin as [Hin|Hin]; [injection Hin as <- <-|]); try destruct Hin;
    vm_compute in Hidx; try discriminate Hidx; injection Hidx as <-;
    cbn [firstIncluded];
    repeat match goal with
           | |- context [if includes ?k ?s then _ else _] =>
               first [ rewrite Hinc
                     | replace (includes k s) with false
                         by (symmetry; eapply Hsmaller;
                             [in_locationMap|vm_compute; reflexivity|lia]) ]
           end;
    reflexivity.
Qed.

Lemma X12_witness :
  mockGeocodeHouston "6815 Hillcroft St, Houston, TX 77081" = mkCoords 29.7010 (-95.5200).
Proof.
  refine (X12_mockGeocodeHouston_zip_first "6815 Hillcroft St, Houston, TX 77081" "77081" (mkCoords 29.7010 (-95.5200)) 77081
            _ eq_refl eq_refl _).
  - unfold locationMap. repeat (first [left; reflexivity | right]).
  - intros zip' coords' j Hin. unfold locationMap in Hin. cbn [In] in Hin.
    repeat (destruct Hin as [Hin|Hin]; [injection Hin as <- <-|]); try destruct Hin;
      intros Hidx Hlt; vm_compute in Hidx; try discriminate Hidx;
      injection Hidx as <-; first [lia | reflexivity].
Defined.

(** X13: the city centre is the answer exactly when the address includes no
    key of the table. *)
Theorem X13_mockGeocodeHouston_default address :
  mockGeocodeHouston address = cityCenter <->
  forall key coords, In (key, coords) locationMap ->
                     includes key (toLowerCase address) = false.
Proof.
  unfold mockGeocodeHouston.
  destruct (firstIncluded _ _) as [[key coords]|] eqn:E.
  - split.
    + intros ->. apply firstIncluded_some in E as (pre & post & Hentries & _ & _).
      assert (Hin : In (key, cityCenter) (objectEntries locationMap))
        by (rewrite Hentries; apply in_elt).
      rewrite locationMap_entries in Hin. cbn [In] in Hin.
      repeat (destruct Hin as [Hin|Hin]; [discriminate Hin|]). destruct Hin.
    + intros H. apply firstIncluded_some in E as (pre & post & Hentries & Hinc & _).
      rewrite (H key coords) in Hinc; [discriminate|].
      apply (proj1 (objectEntries_locationMap_In (key, coords))).
      rewrite Hentries. apply in_elt.
  - split; [|reflexivity]. intros _ key coords Hin.
    rewrite firstIncluded_none in E. apply (E key coords).
    apply (proj2 (objectEntries_locationMap_In (key, coords))). exact Hin.
Qed.

Lemma lower_char_idem a : lower_char (lower_char a) = lower_char a.
Proof. destruct a as [[] [] [] [] [] [] [] []]; vm_compute; reflexivity. Qed.

Lemma toLowerCase_idem s : toLowerCase (toLowerCase s) = toLowerCase s.
Proof. induction s as [|a s IH]; simpl; [reflexivity|]. rewrite lower_char_idem, IH. reflexivity. Qed.

(** X14: the case of the address does not matter. *)
Theorem X14_mockGeocodeHouston_case address :
  mockGeocodeHouston (toLowerCase address) = mockGeocodeHouston address.
Proof. unfold mockGeocodeHouston. rewrite toLowerCase_idem. reflexivity. Qed.

(** X15: seven entries are never the one the loop stops at: each stands after
    the plain street key that every address including it includes too. *)
Theorem X15_mockGeocodeHouston_unreachable_entries address key coords :
  In key ["516 westheimer"; "1834 westheimer"; "3334 westheimer"; "8888 westheimer";
          "4410 richmond"; "1201 fannin"; "9889 bellaire"] ->
  firstIncluded (toLowerCase address) (objectEntries locationMap) <> Some (key, coords).
Proof.
  intros Hkey. rewrite locationMap_entries. cbn [firstIncluded].
  generalize (toLowerCase address) as s. intros s.
  repeat match goal with
         | |- context [if includes ?k s then _ else _] =>
             destruct (includes k s) eqn:?;
             [ intros [= Ek _]; subst key; cbn [In] in Hkey;
               first [ solve [intuition discriminate]
                     | match goal with
                       | Hs : includes ?long s = true, Hg : includes ?short s = false |- _ =>
                           solve [ rewrite (includes_app_r "516 " short s Hs) in Hg; discriminate Hg
                                 | rewrite (includes_app_r "1834 " short s Hs) in Hg; discriminate Hg
                                 | rewrite (includes_app_r "3334 " short s Hs) in Hg; discriminate Hg
                                 | rewrite (includes_app_r "8888 " short s Hs) in Hg; discriminate Hg
                                 | rewrite (includes_app_r "4410 " short s Hs) in Hg; discriminate Hg
                                 | rewrite (includes_app_r "1201 " short s Hs) in Hg; discriminate Hg
                                 | rewrite (includes_app_r "9889 " short s Hs) in Hg; discriminate Hg ]
                       end ]
             | ]
         end.
  discriminate.
Qed.

Lemma X15_witness :
  firstIncluded (toLowerCase "516 Westheimer Rd") (objectEntries locationMap) <>
  Some ("516 westheimer", mkCoords 29.7485 (-95.3950)).
Proof.
  apply (X15_mockGeocodeHouston_unreachable_entries "516 Westheimer Rd" "516 westheimer"). left. reflexivity.
Defined.


(* ----------------------------------------------------------------- *)
(** *** parseCSVLine *)

Import Csv.

Lemma parseCSVLine_from_unquoted line current result piece pieces :
  includes (String quote "") line = false ->
  split "," line = piece :: pieces ->
  parseCSVLine_from line current false result =
  (result ++ trim (current ++ piece) :: map trim pieces)%list.
Proof.
  revert current result piece pieces.
  induction line as [|a line IH]; intros current result piece pieces Hq Hs.
  - injection Hs as <- <-. rewrite append_nil_r. reflexivity.
  - rewrite includes_char in Hq. apply orb_false_elim in Hq as [Ha Hq].
    cbn [parseCSVLine_from split] in *. rewrite Ha.
    destruct (a =? ",")%char.
    + injection Hs as <- <-. cbn [andb negb].
      destruct (split "," line) as [|p ps] eqn:E; [exfalso; eapply split_nonempty; eauto|].
      rewrite (IH "" _ p ps Hq eq_refl). rewrite append_nil_r, <- app_assoc. reflexivity.
    + cbn [andb]. destruct (split "," line) as [|p ps] eqn:E;
        [exfalso; eapply split_nonempty; eauto|].
      injection Hs as <- <-.
      rewrite (IH _ _ p ps Hq eq_refl), append_assoc. reflexivity.
Qed.

(** X16: without a quote character the cells are the pieces between commas,
    trimmed. *)
Theorem X16_parseCSVLine_unquoted line :
  includes (String quote "") line = false ->
  parseCSVLine line = map trim (split "," line).
Proof.
  intros Hq. unfold parseCSVLine.
  destruct (split "," line) as [|p ps] eqn:E; [exfalso; eapply split_nonempty; eauto|].
  rewrite (parseCSVLine_from_unquoted _ _ _ p ps Hq E). reflexivity.
Qed.

Lemma X16_witness : parseCSVLine "Aga's , 6815 Hillcroft St,, $$ " = ["Aga's"; "6815 Hillcroft St"; ""; "$$"].
Proof. exact (X16_parseCSVLine_unquoted "Aga's , 6815 Hillcroft St,, $$ " eq_refl). Defined.

Lemma parseCSVLine_from_cells line current inQuotes result cell :
  all_chars (fun a => negb (a =? quote)%char) current = true ->
  (forall c, In c result -> trim c = c /\ includes (String quote "") c = false) ->
  In cell (parseCSVLine_from line current inQuotes result) ->
  trim cell = cell /\ includes (String quote "") cell = false.
Proof.
  revert current inQuotes result.
  induction line as [|a line IH]; intros current inQuotes result Hc Hr; cbn [parseCSVLine_from].
  - intros H. apply in_app_or in H as [H|[<-|[]]]; [auto|].
    split; [apply trim_idem|]. apply includes_char_false, all_chars_trim, Hc.
  - destruct (a =? quote)%char eqn:Q; [apply IH; assumption|].
    destruct ((a =? ",")%char && negb inQuotes).
    + apply IH; [reflexivity|]. intros c H. apply in_app_or in H as [H|[<-|[]]]; [auto|].
      split; [apply trim_idem|]. apply includes_char_false, all_chars_trim, Hc.
    + apply IH; [|exact Hr]. rewrite all_chars_app, Hc. simpl. rewrite Q. reflexivity.
Qed.

(** X17: every cell is trimmed and holds no quote character. *)
Theorem X17_parseCSVLine_cells line cell :
  In cell (parseCSVLine line) ->
  trim cell = cell /\ includes (String quote "") cell = false.
Proof.
  apply parseCSVLine_from_cells; [reflexivity|intros c []].
Qed.

Lemma X17_witness :
  trim "Main St, Houston" = "Main St, Houston" /\
  includes (String quote "") "Main St, Houston" = false.
Proof.
  apply (X17_parseCSVLine_cells (String quote ("Main St, Houston" ++ String quote " ,TX"))).
  left. reflexivity.
Defined.

Lemma parseCSVLine_from_nonempty line current inQuotes result :
  parseCSVLine_from line current inQuotes result <> [].
Proof.
  revert current inQuotes result. induction line as [|a line IH]; intros; cbn [parseCSVLine_from].
  - intros H. apply app_eq_nil in H as [_ H]. discriminate.
  - destruct (a =? quote)%char; [apply IH|]. destruct (_ && _); apply IH.
Qed.


Lemma parseCSVLine_from_body cell rest current inQuotes result :
  includes (String quote "") cell = false ->
  inQuotes = true \/ includes "," cell = false ->
  parseCSVLine_from (cell ++ rest) current inQuotes result =
  parseCSVLine_from rest (current ++ cell) inQuotes result.
Proof.
  revert current. induction cell as [|a cell IH]; intros current Hq Hc.
  - rewrite append_nil_r. reflexivity.
  - rewrite includes_char in Hq. apply orb_false_elim in Hq as [Ha Hq].
    cbn [append parseCSVLine_from]. rewrite Ha.
    assert (Hcomma : (a =? ",")%char && negb inQuotes = false).
    { destruct Hc as [->|Hc]; [apply andb_false_r|].
      rewrite includes_char in Hc. apply orb_false_elim in Hc as [-> _]. reflexivity. }
    rewrite Hcomma, IH, append_assoc; [reflexivity|exact Hq|].
    destruct Hc as [Hc|Hc]; [left; exact Hc|right].
    rewrite includes_char in Hc. apply orb_false_elim in Hc. tauto.
Qed.

Lemma parseCSVLine_from_encoded cell rest result :
  includes (String quote "") cell = false ->
  parseCSVLine_from
    ((if includes "," cell then String quote (cell ++ String quote "") else cell) ++ rest)
    "" false result =
  parseCSVLine_from rest cell false result.
Proof.
  intros Hq. destruct (includes "," cell) eqn:Hc.
  - cbn [append parseCSVLine_from]. rewrite Ascii.eqb_refl. cbn [negb].
    rewrite append_assoc, parseCSVLine_from_body by auto.
    cbn [append parseCSVLine_from]. rewrite Ascii.eqb_refl. reflexivity.
  - rewrite parseCSVLine_from_body by auto. reflexivity.
Qed.

(** X18: round trip.  Cells without quote characters, written one after the
    other with commas between them, a cell with a comma inside being put
    between quotes, are read back as they were, trimmed. *)
Theorem X18_parseCSVLine_round_trip cells :
  cells <> [] ->
  (forall c, In c cells -> includes (String quote "") c = false) ->
  parseCSVLine
    (join ","
       (map (fun c => if includes "," c then String quote (c ++ String quote "") else c)
            cells)) =
  map trim cells.
Proof.
  intros Hne Hq. unfold parseCSVLine, join.
  change (map trim cells) with ([] ++ map trim cells)%list.
  generalize (@nil string) as result.
  induction cells as [|c cells IH]; [congruence|]. intros result.
  assert (Hc : includes (String quote "") c = false) by (apply Hq; left; reflexivity).
  destruct cells as [|c' cells].
  - cbn [map concat].
    rewrite <- (append_nil_r (if includes "," c then _ else _)).
    rewrite parseCSVLine_from_encoded by exact Hc. reflexivity.
  - cbn [map concat] in *.
    rewrite parseCSVLine_from_encoded by exact Hc.
    cbn [append parseCSVLine_from]. change ("," =? quote)%char with false.
    cbn [Ascii.eqb Bool.eqb andb negb].
    rewrite IH; [|discriminate|intros x Hx; apply Hq; right; exact Hx].
    rewrite <- app_assoc. reflexivity.
Qed.

Lemma X18_witness :
  parseCSVLine
    ("Aga's," ++ String quote ("6815 Hillcroft St, Houston" ++ String quote ", $$ ")) =
  ["Aga's"; "6815 Hillcroft St, Houston"; "$$"].
Proof.
  refine (X18_parseCSVLine_round_trip ["Aga's"; "6815 Hillcroft St, Houston"; " $$ "] _ _).
  - discriminate.
  - intros c Hc. cbn [In] in Hc. destruct Hc as [<-|[<-|[<-|[]]]]; reflexivity.
Defined.

(* ----------------------------------------------------------------- *)
(** *** Lines that end in a carriage return *)

Lemma trimEnd_app_space s a : is_space a = true -> trimEnd (s ++ String a "") = trimEnd s.
Proof.
  intros Ha. induction s as [|b s IH]; simpl; [rewrite Ha; reflexivity|].
  rewrite IH. reflexivity.
Qed.

Lemma trimStart_app_space s a :
  is_space a = true ->
  trimStart (s ++ String a "") = match trimStart s with
                                 | EmptyString => EmptyString
                                 | t => t ++ String a ""
                                 end.
Proof.
  intros Ha. induction s as [|b s IH]; simpl; [rewrite Ha; reflexivity|].
  destruct (is_space b); [exact IH|reflexivity].
Qed.

Lemma trim_app_space s a : is_space a = true -> trim (s ++ String a "") = trim s.
Proof.
  intros Ha. unfold trim. rewrite trimStart_app_space by exact Ha.
  destruct (trimStart s) as [|b t]; [reflexivity|].
  change (String b t ++ String a "") with (String b t ++ String a "").
  apply trimEnd_app_space, Ha.
Qed.

Lemma parseCSVLine_from_trailing_space line a current inQuotes result :
  is_space a = true ->
  parseCSVLine_from (line ++ String a "") current inQuotes result =
  parseCSVLine_from line current inQuotes result.
Proof.
  intros Ha. revert current inQuotes result.
  assert (Hq : (a =? quote)%char = false)
    by (destruct a as [[] [] [] [] [] [] [] []]; vm_compute in Ha; try discriminate Ha; reflexivity).
  assert (Hc : (a =? ",")%char = false)
    by (destruct a as [[] [] [] [] [] [] [] []]; vm_compute in Ha; try discriminate Ha; reflexivity).
  induction line as [|b line IH]; intros current inQuotes result.
  - cbn [append parseCSVLine_from]. rewrite Hq, Hc. cbn [andb].
    rewrite trim_app_space by exact Ha. reflexivity.
  - cbn [append parseCSVLine_from]. rewrite !IH. reflexivity.
Qed.

(** X19: a carriage return, or any other white space, at the end of a line
    changes nothing: lines cut out of a file with CRLF endings give the same
    cells. *)
Theorem X19_parseCSVLine_trailing_space line a :
  is_space a = true -> parseCSVLine (line ++ String a "") = parseCSVLine line.
Proof. intros Ha. apply parseCSVLine_from_trailing_space, Ha. Qed.


(* ----------------------------------------------------------------- *)
(** *** The row object *)

Lemma map_fst_combine {A B} (l : list A) (l' : list B) :
  List.length l = List.length l' -> map fst (combine l l') = l.
Proof.
  revert l'. induction l as [|a l IH]; intros [|b l'] H; simpl in *; try discriminate; auto.
  rewrite IH by lia. reflexivity.
Qed.

Lemma X19_witness : parseCSVLine ("Name,Address" ++ String "013" "") = parseCSVLine "Name,Address".
Proof. exact (X19_parseCSVLine_trailing_space "Name,Address" "013"%char eq_refl). Defined.

Lemma rowGet_fold key pairs row :
  rowGet key (fold_left (fun r hv => rowSet (fst hv) (snd hv) r) pairs row) =
  match rowGet key (fold_left (fun r hv => rowSet (fst hv) (snd hv) r) pairs []) with
  | Some v => Some v
  | None => rowGet key row
  end.
Proof.
  revert row. induction pairs as [|[h v] pairs IH]; intros row; [reflexivity|].
  cbn [fold_left fst snd]. rewrite IH. rewrite (IH (rowSet h v [])).
  match goal with
  | |- context [rowGet key (fold_left ?f pairs [])] =>
      destruct (rowGet key (fold_left f pairs [])); [reflexivity|]
  end.
  unfold rowSet. destruct (h =? "__proto__")%string; [reflexivity|].
  cbn [rowGet]. destruct (h =? key)%string; reflexivity.
Qed.

(** A key that is a header is defined in the row; a key that is no header
    is [undefined]. *)
Lemma rowGet_buildRow_header key headers values :
  List.length values = List.length headers ->
  In key headers -> key <> "__proto__" ->
  exists v, rowGet key (buildRow headers values) = Some v.
Proof.
  intros Hlen Hin Hproto. unfold buildRow.
  rewrite <- (map_fst_combine headers values) in Hin by lia.
  induction (combine headers values) as [|[h v] pairs IH]; [destruct Hin|].
  cbn [fold_left fst snd]. rewrite rowGet_fold.
  match goal with
  | |- context [rowGet key (fold_left ?f pairs [])] =>
      destruct (rowGet key (fold_left f pairs [])) as [v'|] eqn:E; [eauto|]
  end.
  destruct Hin as [Hh|Hin]; [|destruct (IH Hin) as [v' Hv']; congruence].
  simpl in Hh. subst h. unfold rowSet.
  destruct (String.eqb_spec key "__proto__"); [contradiction|].
  cbn [rowGet]. rewrite String.eqb_refl. eauto.
Qed.

Lemma rowGet_buildRow_missing key headers values :
  ~ In key headers -> rowGet key (buildRow headers values) = None.
Proof.
  intros Hin. unfold buildRow.
  assert (H : ~ In key (map fst (combine headers values))).
  { intros H. apply Hin. clear Hin. revert values H.
    induction headers as [|h headers IH]; intros [|v values]; simpl; try tauto.
    intros [H|H]; eauto. }
  clear Hin. induction (combine headers values) as [|[h v] pairs IH]; [reflexivity|].
  cbn [fold_left fst snd]. rewrite rowGet_fold, IH by (intros H'; apply H; right; exact H').
  unfold rowSet. destruct (h =? "__proto__")%string; [reflexivity|].
  cbn [rowGet]. destruct (String.eqb_spec h key); [|reflexivity].
  exfalso. apply H. left. assumption.
Qed.

(* ----------------------------------------------------------------- *)
(** *** parseCSV *)

Lemma toString_inj a b : toString a = toString b -> a = b.
Proof.
  unfold toString. intros H. apply DecimalZ.to_int_inj.
  assert (N : forall z, NilZero.int_of_string (NilZero.string_of_int (Z.to_int z)) =
                        Some (Z.to_int z)).
  { intros z. apply NilZero.isi; destruct z; simpl; try discriminate;
      intros [= E]; exact (DecimalPos.Unsigned.to_uint_nonnil _ E). }
  pose proof (N a) as Na. rewrite H, N in Na. congruence.
Qed.

Section CsvProperties.
Context {Rating : Type} (ratingOf : option string -> Rating).

Lemma convertCSVRow_ok headers values i :
  List.length values = List.length headers ->
  In "Address" headers -> In "Price Range" headers ->
  exists r, convertCSVRow ratingOf (buildRow headers values) i = Ok r.
Proof.
  intros Hlen Ha Hp. unfold convertCSVRow.
  destruct (rowGet_buildRow_header "Address" headers values Hlen Ha) as [a ->]; [discriminate|].
  destruct (rowGet_buildRow_header "Price Range" headers values Hlen Hp) as [p ->];
    [discriminate|].
  eauto.
Qed.

Lemma convertCSVRow_throws headers values i :
  ~ In "Address" headers \/ ~ In "Price Range" headers ->
  convertCSVRow ratingOf (buildRow headers values) i = TypeError.
Proof.
  intros [H|H]; unfold convertCSVRow.
  - rewrite rowGet_buildRow_missing by exact H. reflexivity.
  - destruct (rowGet "Address" _); [|reflexivity].
    rewrite rowGet_buildRow_missing by exact H. reflexivity.
Qed.

Lemma parseRows_ok headers i lines restaurants :
  In "Address" headers -> In "Price Range" headers ->
  exists added,
    parseRows ratingOf headers i lines restaurants = Ok (restaurants ++ added)%list /\
    List.length added = List.length (filter (fits headers) lines).
Proof.
  intros Ha Hp. revert i restaurants.
  induction lines as [|line lines IH]; intros i restaurants; cbn [parseRows filter].
  - exists []. rewrite app_nil_r. auto.
  - unfold fits at 1. destruct (Nat.eqb _ _) eqn:E.
    + apply Nat.eqb_eq in E.
      destruct (convertCSVRow_ok headers (parseCSVLine line) i E Ha Hp) as [r ->].
      destruct (IH (i + 1) (restaurants ++ [r])%list) as (added & -> & Hlen).
      exists (r :: added). rewrite <- app_assoc. simpl. auto.
    + apply IH.
Qed.

Lemma parseRows_throws headers i lines restaurants :
  ~ In "Address" headers \/ ~ In "Price Range" headers ->
  existsb (fits headers) lines = true ->
  parseRows ratingOf headers i lines restaurants = TypeError.
Proof.
  intros Hmiss. revert i restaurants.
  induction lines as [|line lines IH]; intros i restaurants; cbn [parseRows existsb];
    [discriminate|].
  unfold fits at 1. destruct (Nat.eqb _ _); [|apply IH].
  intros _. rewrite convertCSVRow_throws by exact Hmiss. reflexivity.
Qed.

(** X20: a content of fewer than two lines, once trimmed, gives no
    restaurant. *)
Theorem X20_parseCSV_single_line csvContent :
  includes (String newline "") (trim csvContent) = false ->
  parseCSV ratingOf csvContent = Ok [].
Proof.
  intros H. unfold parseCSV. rewrite split_parts, H. reflexivity.
Qed.

(** X21: with an "Address" and a "Price Range" column in the header nothing
    is thrown, and there is one restaurant for each line that has as many
    cells as the header; the other lines are passed over. *)
Theorem X21_parseCSV_with_columns csvContent header lines :
  split newline (trim csvContent) = header :: lines ->
  In "Address" (parseCSVLine header) ->
  In "Price Range" (parseCSVLine header) ->
  exists restaurants,
    parseCSV ratingOf csvContent = Ok restaurants /\
    List.length restaurants =
    List.length (filter (fits (parseCSVLine header)) lines).
Proof.
  intros Hs Ha Hp. unfold parseCSV. rewrite Hs.
  destruct lines as [|line1 lines]; [exists []; auto|].
  destruct (parseRows_ok (parseCSVLine header) 1 (line1 :: lines) [] Ha Hp)
    as (added & -> & Hlen).
  exists added. auto.
Qed.

(** X22: without an "Address" column, or without a "Price Range" column, the
    first line that has as many cells as the header makes [parseCSV]
    throw. *)
Theorem X22_parseCSV_missing_column csvContent header lines :
  split newline (trim csvContent) = header :: lines ->
  ~ In "Address" (parseCSVLine header) \/ ~ In "Price Range" (parseCSVLine header) ->
  existsb (fits (parseCSVLine header)) lines = true ->
  parseCSV ratingOf csvContent = TypeError.
Proof.
  intros Hs Hmiss Hex. unfold parseCSV. rewrite Hs.
  destruct lines as [|line1 lines]; [discriminate|].
  apply parseRows_throws; assumption.
Qed.

Lemma convertCSVRow_fields row i r :
  convertCSVRow ratingOf row i = Ok r ->
  id r = "houston-" ++ toString i /\
  closingHours r = "" /\
  hoursFormat r = complex /\
  rowGet "Address" row = Some (address r) /\
  openingHours r = rowGet "Operating Hours" row /\
  (exists price, rowGet "Price Range" row = Some price /\
                 priceRange r = Price.convertPriceRange price) /\
  latitude r = Geocode.latitude (Geocode.mockGeocodeHouston (address r)) /\
  longitude r = Geocode.longitude (Geocode.mockGeocodeHouston (address r)).
Proof.
  unfold convertCSVRow.
  destruct (rowGet "Address" row) as [a|]; [|discriminate].
  destruct (rowGet "Price Range" row) as [p|]; [|discriminate].
  intros [= <-]. cbn. eauto 10.
Qed.

(** What holds of every converted row holds of every restaurant
    returned. *)
Lemma parseRows_Forall (P : Restaurant -> Prop) headers i lines restaurants result :
  (forall row j r, convertCSVRow ratingOf row j = Ok r -> P r) ->
  Forall P restaurants ->
  parseRows ratingOf headers i lines restaurants = Ok result ->
  Forall P result.
Proof.
  intros HP. revert i restaurants.
  induction lines as [|line lines IH]; intros i restaurants Hall; cbn [parseRows].
  - intros [= <-]. exact Hall.
  - destruct (Nat.eqb _ _); [|apply IH; exact Hall].
    destruct (convertCSVRow _ _ i) as [r|] eqn:E; [|discriminate].
    apply IH. apply Forall_app. split; [exact Hall|]. constructor; [eauto|constructor].
Qed.

Lemma parseRows_ids headers i lines restaurants result :
  NoDup (map id restaurants) ->
  Forall (fun r => exists j, 1 <= j < i /\ id r = "houston-" ++ toString j) restaurants ->
  parseRows ratingOf headers i lines restaurants = Ok result ->
  1 <= i ->
  NoDup (map id result) /\
  Forall (fun r => exists j, 1 <= j /\ id r = "houston-" ++ toString j) result.
Proof.
  revert i restaurants.
  induction lines as [|line lines IH]; intros i restaurants Hnd Hall; cbn [parseRows].
  - intros [= <-] Hi. split; [exact Hnd|].
    eapply Forall_impl; [|exact Hall]. intros r (j & Hj & Hid). exists j. split; [lia|exact Hid].
  - assert (Hnext : Forall (fun r => exists j, 1 <= j < i + 1 /\
                                       id r = "houston-" ++ toString j) restaurants).
    { eapply Forall_impl; [|exact Hall]. intros r (j & Hj & Hid). exists j.
      split; [lia|exact Hid]. }
    destruct (Nat.eqb _ _); [|intros H Hi; apply (IH (i + 1) restaurants); auto; lia].
    destruct (convertCSVRow _ _ i) as [r|] eqn:E; [|discriminate].
    destruct (convertCSVRow_fields _ _ _ E) as (Hid & _).
    intros H Hi. apply (IH (i + 1) (restaurants ++ [r])%list); [| |exact H|lia].
    + rewrite map_app. apply NoDup_app; [exact Hnd|repeat constructor; intros []|].
      intros a Ha [<-|[]]. apply in_map_iff in Ha as (r' & Hr' & Hin).
      rewrite Forall_forall in Hall. destruct (Hall r' Hin) as (j & Hj & Hidj).
      rewrite Hid, Hidj in Hr'. injection Hr' as Hr'. apply toString_inj in Hr'. lia.
    + apply Forall_app. split; [exact Hnext|].
      constructor; [|constructor]. exists i. split; [lia|exact Hid].
Qed.

(** The identifiers of the restaurants added are those of the lines that
    fit, in the order of the lines, [i] being the index of the first. *)
Lemma parseRows_ids_in_order headers i lines restaurants result :
  parseRows ratingOf headers i lines restaurants = Ok result ->
  map id result =
  (map id restaurants ++
   map (fun il => ("houston-" ++ toString (fst il))%string)
     (filter (fun il => fits headers (snd il))
        (combine (map (fun k => i + Z.of_nat k) (seq 0 (List.length lines))) lines)))%list.
Proof.
  revert i restaurants.
  induction lines as [|line lines IH]; intros i restaurants; cbn [parseRows].
  - intros [= <-]. cbn. rewrite app_nil_r. reflexivity.
  - cbn [List.length seq map combine filter snd].
    assert (Hshift : map (fun k => i + Z.of_nat k) (seq 1 (List.length lines)) =
                     map (fun k => i + 1 + Z.of_nat k) (seq 0 (List.length lines))).
    { rewrite <- seq_shift, map_map. apply map_ext. intros k. lia. }
    rewrite Hshift.
    change (Nat.eqb (List.length (parseCSVLine line)) (List.length headers))
      with (fits headers line).
    destruct (fits headers line); [|apply IH].
    destruct (convertCSVRow ratingOf _ i) as [r|] eqn:E; [|discriminate].
    destruct (convertCSVRow_fields _ _ _ E) as (Hid & _).
    intros H. rewrite (IH _ _ H), map_app, <- app_assoc. cbn [map app fst].
    rewrite Hid. replace (i + Z.of_nat 0) with i by lia. reflexivity.
Qed.

(** X23: the identifier of a restaurant is "houston-" and the index of its
    line, the first line after the header having index 1 and the lines that
    are passed over keeping theirs; the restaurants come in the order of
    their lines and no two share an identifier. *)
Theorem X23_parseCSV_ids csvContent header lines restaurants :
  split newline (trim csvContent) = header :: lines ->
  parseCSV ratingOf csvContent = Ok restaurants ->
  map id restaurants =
  map (fun il => "houston-" ++ toString (fst il))
    (filter (fun il => fits (parseCSVLine header) (snd il))
       (combine (map Z.of_nat (seq 1 (List.length lines))) lines)) /\
  NoDup (map id restaurants).
Proof.
  intros Hs. unfold parseCSV. rewrite Hs. destruct lines as [|line1 lines].
  - intros [= <-]. split; [reflexivity|constructor].
  - intros H. split.
    + rewrite (parseRows_ids_in_order _ _ _ _ _ H). cbn [map app].
      do 3 f_equal. rewrite <- seq_shift, map_map. apply map_ext. intros k. lia.
    + eapply parseRows_ids; [| |exact H|lia]; constructor.
Qed.

End CsvProperties.

Lemma X20_witness : parseCSV (fun cell : option string => cell) "Name,Address,Price Range" = Ok [].
Proof. exact (X20_parseCSV_single_line (fun cell : option string => cell) "Name,Address,Price Range" eq_refl). Defined.

Lemma X21_witness :
  exists restaurants,
    parseCSV (fun cell : option string => cell)
      ("Name,Address,Price Range" ++ String newline
       "Aga's,6815 Hillcroft,$10-20" ++ String newline
       "too,short" ++ String newline
       "Pondicheri,2800 Kirby,$20-40") = Ok restaurants /\
    List.length restaurants = 2%nat.
Proof.
  exact (X21_parseCSV_with_columns (fun cell : option string => cell)
           ("Name,Address,Price Range" ++ String newline
            "Aga's,6815 Hillcroft,$10-20" ++ String newline
            "too,short" ++ String newline
            "Pondicheri,2800 Kirby,$20-40")
           "Name,Address,Price Range"
           ["Aga's,6815 Hillcroft,$10-20"; "too,short"; "Pondicheri,2800 Kirby,$20-40"]
           eq_refl (or_intror (or_introl eq_refl))
           (or_intror (or_intror (or_introl eq_refl)))).
Defined.

Lemma X22_witness :
  parseCSV (fun cell : option string => cell)
    ("Name,Price Range" ++ String newline "Aga's,$10-20") = TypeError.
Proof.
  refine (X22_parseCSV_missing_column (fun cell : option string => cell)
            ("Name,Price Range" ++ String newline "Aga's,$10-20")
            "Name,Price Range" ["Aga's,$10-20"] eq_refl (or_introl _) eq_refl).
  intros H. cbn in H. destruct H as [H|[H|[]]]; discriminate H.
Defined.

Lemma X23_witness :
  exists restaurants,
    parseCSV (fun cell : option string => cell)
      ("Name,Address,Price Range" ++ String newline
       "Aga's,6815 Hillcroft,$10-20" ++ String newline
       "too,short" ++ String newline
       "Pondicheri,2800 Kirby,$20-40") = Ok restaurants /\
    map id restaurants = ["houston-1"; "houston-3"] /\
    NoDup (map id restaurants).
Proof.
  eexists. split; [reflexivity|].
  exact (X23_parseCSV_ids (fun cell : option string => cell)
           ("Name,Address,Price Range" ++ String newline
            "Aga's,6815 Hillcroft,$10-20" ++ String newline
            "too,short" ++ String newline
            "Pondicheri,2800 Kirby,$20-40")
           "Name,Address,Price Range"
           ["Aga's,6815 Hillcroft,$10-20"; "too,short"; "Pondicheri,2800 Kirby,$20-40"]
           _ eq_refl eq_refl).
Defined.


(* ----------------------------------------------------------------- *)
(** *** Restaurants read from CSV, and their hours *)

Section IngestedHours.
Context {Rating : Type} (ratingOf : option string -> Rating).

(** X24: every restaurant [parseCSV] returns has an empty [closingHours] and
    the format tag [complex]; the detector agrees with the tag, so the status
    of its opening hours is the Complex evaluation and the display is the raw
    text; its price range is the symbol of a cell and its coordinates are
    those of its address. *)
Theorem X24_parseCSV_restaurants_are_complex csvContent restaurants :
  parseCSV ratingOf csvContent = Ok restaurants ->
  Forall (fun r =>
            closingHours r = "" /\
            hoursFormat r = complex /\
            In (priceRange r) ["$"; "$$"; "$$$"; "$$$$"] /\
            latitude r = Geocode.latitude (Geocode.mockGeocodeHouston (address r)) /\
            longitude r = Geocode.longitude (Geocode.mockGeocodeHouston (address r)) /\
            forall hours,
              openingHours r = Some hours ->
              detectHoursFormat hours (closingHours r) = hoursFormat r /\
              formatHoursDisplay hours (closingHours r) None = hours /\
              forall now,
                getRestaurantStatus hours (closingHours r) now = parseComplexHours hours now)
         restaurants.
Proof.
  assert (Hrow : forall row j r,
             convertCSVRow ratingOf row j = Ok r ->
             closingHours r = "" /\
             hoursFormat r = complex /\
             In (priceRange r) ["$"; "$$"; "$$$"; "$$$$"] /\
             latitude r = Geocode.latitude (Geocode.mockGeocodeHouston (address r)) /\
             longitude r = Geocode.longitude (Geocode.mockGeocodeHouston (address r)) /\
             forall hours,
               openingHours r = Some hours ->
               detectHoursFormat hours (closingHours r) = hoursFormat r /\
               formatHoursDisplay hours (closingHours r) None = hours /\
               forall now,
                 getRestaurantStatus hours (closingHours r) now = parseComplexHours hours now).
  { intros row j r H.
    destruct (convertCSVRow_fields ratingOf _ _ _ H)
      as (_ & Hc & Hf & _ & _ & (price & _ & Hp) & Hlat & Hlon).
    repeat (split; [assumption|]).
    split; [rewrite Hp; apply convertPriceRange_in_symbols|].
    repeat (split; [assumption|]).
    intros hours _. rewrite Hc, Hf.
    assert (D : detectHoursFormat hours "" = complex).
    { unfold detectHoursFormat. change (test simpleTimePattern "") with false.
      rewrite andb_false_r. reflexivity. }
    split; [exact D|]. unfold formatHoursDisplay, getRestaurantStatus. rewrite D. auto. }
  unfold parseCSV. destruct (split newline (trim csvContent)) as [|header [|line1 lines]].
  - intros [= <-]. constructor.
  - intros [= <-]. constructor.
  - apply parseRows_Forall; [exact Hrow|constructor].
Qed.

End IngestedHours.

Lemma X24_witness :
  getRestaurantStatus "Mon-Fri: 11:00AM-9:00PM" "" (mkDate 1 12 0) =
  parseComplexHours "Mon-Fri: 11:00AM-9:00PM" (mkDate 1 12 0).
Proof.
  pose proof (X24_parseCSV_restaurants_are_complex (fun cell : option string => cell)
                ("Name,Address,Price Range,Operating Hours" ++ String newline
                 "Aga's,6815 Hillcroft,$10-20,Mon-Fri: 11:00AM-9:00PM")
                _ eq_refl) as H.
  apply Forall_inv in H. destruct H as (_ & _ & _ & _ & _ & H).
  destruct (H "Mon-Fri: 11:00AM-9:00PM" eq_refl) as (_ & _ & Hstatus).
  exact (Hstatus (mkDate 1 12 0)).
Defined.
